(** * Student tracker (app.py): repository and request handlers over SQLite

    A shallow embedding of [StudentTracker] and of the two POST handlers that
    write to the store, together with the part of Python's [sqlite3] module
    and of SQLite that their SQL statements rely on:

    - Python [int] is unbounded ([Z]); binding one outside the signed 64-bit
      range to a statement raises [OverflowError];
    - Python [float] is a binary64: a finite value is the rational it
      denotes ([Fin]), next to the two infinities and NaN; the sum and the
      quotient of AVG are rounded to binary64 after each operation, as
      SQLite's accumulator of type double does.  SQLite turns a NaN parameter
      into NULL;
    - [students] is a rowid table ([roll_number INTEGER PRIMARY KEY] is the
      rowid): its rows are kept, and scanned, in ascending [roll_number];
    - [grades] has an implicit rowid: rows are kept in insertion order;
    - foreign keys are declared but not enforced (SQLite's default);
    - the connection runs in the module's default transaction mode: a
      transaction is opened implicitly before an INSERT and lasts until
      [commit] or [rollback]. *)

From Stdlib Require Import ZArith QArith List String Ascii Bool Lia.
From Stdlib Require Import Permutation Sorted Setoid.
Import ListNotations.

Local Open Scope Z_scope.

(** ** Python values and exceptions *)

Definition int64_min : Z := - 2 ^ 63.
Definition int64_max : Z := 2 ^ 63 - 1.

Definition fits_int64 (n : Z) : bool := (int64_min <=? n) && (n <=? int64_max).

Inductive pyfloat : Type :=
| Fin (q : Q)
| PosInf
| NegInf
| NaN.

Inductive exn : Type :=
| OverflowError
| IntegrityError (msg : string)
| ValueError (msg : string)
| BadRequestKeyError (key : string).

(** [str(e)], as interpolated by an f-string. *)
Definition exn_str (e : exn) : string :=
  match e with
  | OverflowError => "Python int too large to convert to SQLite INTEGER"
  | IntegrityError msg => msg
  | ValueError msg => msg
  | BadRequestKeyError key => key
  end.

(** [a <= b] on floats: every comparison with NaN is [False]. *)
Definition py_le (a b : pyfloat) : bool :=
  match a, b with
  | NaN, _ | _, NaN => false
  | NegInf, _ => true
  | _, PosInf => true
  | Fin x, Fin y => Qle_bool x y
  | _, _ => false
  end.

(** Rounding of a rational to binary64: to the nearest value, ties to the
    even mantissa; 53 bits of mantissa, least exponent -1074 (subnormals),
    and infinity once the rounded magnitude reaches 2^1024. *)
Definition round_half_even (num den : Z) : Z :=
  let m := num / den in
  match 2 * (num mod den) ?= den with
  | Lt => m
  | Gt => m + 1
  | Eq => if Z.even m then m else m + 1
  end.

(** For n/d > 0: the exponent e, at least -1074, with 2^52 <= (n/d)/2^e < 2^53
    when n/d is in the normal range. *)
Definition binary64_exponent (n d : Z) : Z :=
  let k := Z.log2 n - Z.log2 d in
  let floor_log2 :=
    if n * 2 ^ Z.max 0 (- k) <? d * 2 ^ Z.max 0 k then k - 1 else k in
  Z.max (-1074) (floor_log2 - 52).

Definition round_magnitude (n d : Z) : Q :=
  let e := binary64_exponent n d in
  let m := round_half_even (n * 2 ^ Z.max 0 (- e)) (d * 2 ^ Z.max 0 e) in
  Qred (Qmake (m * 2 ^ Z.max 0 e) (Z.to_pos (2 ^ Z.max 0 (- e)))).

Definition round64 (q : Q) : pyfloat :=
  let r := Qred q in
  match Qnum r with
  | Z0 => Fin 0
  | Zpos n =>
      let v := round_magnitude (Zpos n) (Zpos (Qden r)) in
      if Qle_bool (inject_Z (2 ^ 1024)) v then PosInf else Fin v
  | Zneg n =>
      let v := round_magnitude (Zpos n) (Zpos (Qden r)) in
      if Qle_bool (inject_Z (2 ^ 1024)) v then NegInf else Fin (- v)
  end.

(** Float addition, and division of a sum by a row count (which is below
    2^53 in any database SQLite can hold, so its conversion to a float is
    exact): the exact result rounded to binary64. *)
Definition fadd (a b : pyfloat) : pyfloat :=
  match a, b with
  | NaN, _ | _, NaN => NaN
  | Fin x, Fin y => round64 (x + y)
  | PosInf, NegInf | NegInf, PosInf => NaN
  | PosInf, _ | _, PosInf => PosInf
  | NegInf, _ | _, NegInf => NegInf
  end.

Definition fdiv_count (a : pyfloat) (n : nat) : pyfloat :=
  match a with
  | Fin x => round64 (x / inject_Z (Z.of_nat n))
  | other => other
  end.

(** ** The database: two relations behind one connection *)

Abbreviation student_row := (Z * string)%type (only parsing).          (* roll_number, name *)
Abbreviation grade_row := (Z * string * pyfloat)%type (only parsing).  (* roll_number, subject, grade *)

Record tables : Type := mkTables {
  students : list student_row;
  grades : list grade_row
}.

(** [disk] is the committed content of tracker.db; [txn] is the content as
    seen inside the open transaction, when there is one. *)
Record connection : Type := mkConn {
  disk : tables;
  txn : option tables
}.

Definition view (c : connection) : tables :=
  match txn c with
  | Some t => t
  | None => disk c
  end.

(** A new database file after [init_db]: both relations exist and are empty.
    On an existing file CREATE TABLE IF NOT EXISTS changes nothing. *)
Definition init_db : connection :=
  {| disk := {| students := []; grades := [] |}; txn := None |}.

(** ** Computations on a connection that may raise *)

Inductive result (A : Type) : Type :=
| Ok (a : A)
| Raise (e : exn).

Arguments Ok {A} a.
Arguments Raise {A} e.

Definition M (A : Type) : Type := connection -> result A * connection.

Definition ret {A : Type} (a : A) : M A := fun c => (Ok a, c).

Definition bind {A B : Type} (m : M A) (k : A -> M B) : M B :=
  fun c =>
    match m c with
    | (Ok a, c') => k a c'
    | (Raise e, c') => (Raise e, c')
    end.

Definition raise {A : Type} (e : exn) : M A := fun c => (Raise e, c).

(** [try: body except ...]: [handler e] is [None] when no clause matches [e],
    and the exception then propagates. *)
Definition try_except {A : Type} (body : M A) (handler : exn -> option (M A)) : M A :=
  fun c =>
    match body c with
    | (Ok a, c') => (Ok a, c')
    | (Raise e, c') =>
        match handler e with
        | Some h => h c'
        | None => (Raise e, c')
        end
    end.

Declare Scope py_scope.
Delimit Scope py_scope with py.
Notation "x <- m ;; k" := (bind m (fun x => k))
  (at level 61, m at next level, right associativity) : py_scope.
Notation "m ;; k" := (bind m (fun _ => k))
  (at level 61, right associativity) : py_scope.

(** ** sqlite3: parameters, transactions, cursors *)

Definition bind_int (n : Z) : result Z :=
  if fits_int64 n then Ok n else Raise OverflowError.

(** A float parameter as a column value: NaN becomes NULL ([None]). *)
Definition real_or_null (x : pyfloat) : option pyfloat :=
  match x with
  | NaN => None
  | other => Some other
  end.

Definition begin (c : connection) : connection :=
  match txn c with
  | Some _ => c
  | None => {| disk := disk c; txn := Some (disk c) |}
  end.

(** [cursor.execute] of an INSERT: the implicit BEGIN comes first; a failing
    statement changes no row and leaves the transaction open. *)
Definition execute_dml (stmt : tables -> result tables) : M unit :=
  fun c =>
    let c1 := begin c in
    match stmt (view c1) with
    | Ok t => (Ok tt, {| disk := disk c1; txn := Some t |})
    | Raise e => (Raise e, c1)
    end.

(** [cursor.execute] of a SELECT, read through the open transaction. *)
Definition execute_select {A : Type} (q : tables -> result A) : M A :=
  fun c => (q (view c), c).

Definition commit : M unit :=
  fun c => (Ok tt, {| disk := view c; txn := None |}).

Definition rollback : M unit :=
  fun c => (Ok tt, {| disk := disk c; txn := None |}).

(** ** The SQL statements of the repository *)

Definition has_rowid (n : Z) (l : list student_row) : bool :=
  existsb (fun row => fst row =? n) l.

(** Position of a new row in the rowid B-tree: before the first larger key. *)
Fixpoint rowid_insert (r : student_row) (l : list student_row) : list student_row :=
  match l with
  | [] => [r]
  | x :: l' => if fst r <? fst x then r :: l else x :: rowid_insert r l'
  end.

(** INSERT INTO students (name, roll_number) VALUES (?, ?) *)
Definition sql_insert_student (name : string) (roll_number : Z) (t : tables)
  : result tables :=
  match bind_int roll_number with
  | Raise e => Raise e
  | Ok r =>
      if has_rowid r (students t)
      then Raise (IntegrityError "UNIQUE constraint failed: students.roll_number")
      else Ok {| students := rowid_insert (r, name) (students t); grades := grades t |}
  end.

(** What stops INSERT INTO grades (roll_number, subject, grade) VALUES (?, ?, ?):
    the integer does not fit, or the grade is NULL in a NOT NULL column. *)
Definition grade_insert_error (roll_number : Z) (grade : pyfloat) : option exn :=
  match bind_int roll_number with
  | Raise e => Some e
  | Ok _ =>
      match real_or_null grade with
      | None => Some (IntegrityError "NOT NULL constraint failed: grades.grade")
      | Some _ => None
      end
  end.

Definition sql_insert_grade (roll_number : Z) (subject : string) (grade : pyfloat)
  (t : tables) : result tables :=
  match grade_insert_error roll_number grade with
  | Some e => Raise e
  | None =>
      Ok {| students := students t;
            grades := grades t ++ [(roll_number, subject, grade)] |}
  end.

(** SELECT roll_number, name FROM students *)
Definition sql_select_students (t : tables) : result (list student_row) :=
  Ok (students t).

(** SELECT name FROM students WHERE roll_number = ? *)
Definition sql_select_name (roll_number : Z) (t : tables) : result (list string) :=
  match bind_int roll_number with
  | Raise e => Raise e
  | Ok r => Ok (map snd (filter (fun row => fst row =? r) (students t)))
  end.

(** The AVG aggregate: one pass over the rows that pass the WHERE clause,
    NULL when there was none, and a NaN quotient is returned as NULL. *)
Record avg_ctx : Type := mkAvg {
  rsum : pyfloat;
  cnt : nat
}.

Definition avg_step (where_ : grade_row -> bool) (p : avg_ctx) (row : grade_row)
  : avg_ctx :=
  if where_ row then {| rsum := fadd (rsum p) (snd row); cnt := S (cnt p) |} else p.

Definition avg_final (p : avg_ctx) : option pyfloat :=
  match cnt p with
  | O => None
  | S _ => real_or_null (fdiv_count (rsum p) (cnt p))
  end.

Definition sql_avg (where_ : grade_row -> bool) (rows : list grade_row)
  : option pyfloat :=
  avg_final (fold_left (avg_step where_) rows {| rsum := Fin 0; cnt := O |}).

(** SELECT AVG(grade) FROM grades WHERE roll_number = ? *)
Definition sql_avg_by_roll (roll_number : Z) (t : tables) : result (option pyfloat) :=
  match bind_int roll_number with
  | Raise e => Raise e
  | Ok r => Ok (sql_avg (fun row => fst (fst row) =? r) (grades t))
  end.

(** SELECT AVG(grade) FROM grades WHERE subject = ? *)
Definition sql_avg_by_subject (subject : string) (t : tables)
  : result (option pyfloat) :=
  Ok (sql_avg (fun row => String.eqb (snd (fst row)) subject) (grades t)).

(** Order of REAL values in ORDER BY; NULL (here NaN) sorts below all. *)
Definition sql_le (a b : pyfloat) : bool :=
  match a, b with
  | NaN, _ => true
  | _, NaN => false
  | _, _ => py_le a b
  end.

(** students JOIN grades ON students.roll_number = grades.roll_number
    WHERE grades.subject = ?, projected on (name, grade). *)
Definition sql_join_subject (subject : string) (t : tables)
  : list (string * pyfloat) :=
  flat_map
    (fun st : student_row =>
       map (fun g : grade_row => (snd st, snd g))
         (filter
            (fun g : grade_row =>
               (fst st =? fst (fst g)) && String.eqb (snd (fst g)) subject)
            (grades t)))
    (students t).

(** ORDER BY grades.grade DESC, as a stable insertion sort. *)
Fixpoint insert_desc (x : string * pyfloat) (l : list (string * pyfloat))
  : list (string * pyfloat) :=
  match l with
  | [] => [x]
  | y :: l' => if sql_le (snd y) (snd x) then x :: l else y :: insert_desc x l'
  end.

Fixpoint order_by_grade_desc (l : list (string * pyfloat))
  : list (string * pyfloat) :=
  match l with
  | [] => []
  | x :: l' => insert_desc x (order_by_grade_desc l')
  end.

(** The topper query; LIMIT 1 keeps the first row of the ordered result. *)
Definition sql_select_topper (subject : string) (t : tables)
  : result (list (string * pyfloat)) :=
  Ok (firstn 1 (order_by_grade_desc (sql_join_subject subject t))).

(** SELECT subject, grade FROM grades WHERE roll_number = ? *)
Definition sql_select_grades (roll_number : Z) (t : tables)
  : result (list (string * pyfloat)) :=
  match bind_int roll_number with
  | Raise e => Raise e
  | Ok r =>
      Ok (map (fun row : grade_row => (snd (fst row), snd row))
            (filter (fun row : grade_row => fst (fst row) =? r) (grades t)))
  end.

(** DISTINCT: a value is output the first time the scan meets it. *)
Fixpoint distinct (l seen : list string) : list string :=
  match l with
  | [] => []
  | x :: l' =>
      if existsb (String.eqb x) seen then distinct l' seen
      else x :: distinct l' (x :: seen)
  end.

(** SELECT DISTINCT subject FROM grades *)
Definition sql_select_subjects (t : tables) : result (list string) :=
  Ok (distinct (map (fun row : grade_row => snd (fst row)) (grades t)) []).

(** [cursor.fetchone()] *)
Definition fetchone {A : Type} (rows : list A) : option A := hd_error rows.

(** ** StudentTracker *)

Local Open Scope py_scope.

Module StudentTracker.

Definition add_student (name : string) (roll_number : Z) : M (bool * string) :=
  try_except
    (execute_dml (sql_insert_student name roll_number) ;;
     commit ;;
     ret (true, "Student added successfully!"%string))
    (fun e =>
       match e with
       | IntegrityError _ => Some (ret (false, "Error: Roll number already exists."%string))
       | _ => None
       end).

Definition get_all_students : M (list student_row) :=
  execute_select sql_select_students.

Definition get_student_by_roll (roll_number : Z) : M (option string) :=
  rows <- execute_select (sql_select_name roll_number) ;;
  match fetchone rows with
  | Some name => ret (Some name)
  | None => ret None
  end.

(** The loop [for subject, grade in zip(subjects, grades): cursor.execute(...)]. *)
Fixpoint insert_grades (roll_number : Z) (pairs : list (string * pyfloat)) : M unit :=
  match pairs with
  | [] => ret tt
  | (subject, grade) :: rest =>
      execute_dml (sql_insert_grade roll_number subject grade) ;;
      insert_grades roll_number rest
  end.

Definition add_grades (roll_number : Z) (subjects : list string)
  (grades_ : list pyfloat) : M (bool * string) :=
  try_except
    (insert_grades roll_number (combine subjects grades_) ;;
     commit ;;
     ret (true, "Grades added successfully!"%string))
    (fun e =>
       Some (rollback ;;
             ret (false, String.append "Error adding grades: " (exn_str e)))).

Definition calculate_average (roll_number : Z) : M (option pyfloat) :=
  execute_select (sql_avg_by_roll roll_number).

Definition get_subject_topper (subject : string) : M (option (string * pyfloat)) :=
  rows <- execute_select (sql_select_topper subject) ;;
  ret (fetchone rows).

Definition get_class_average (subject : string) : M (option pyfloat) :=
  execute_select (sql_avg_by_subject subject).

Definition get_student_grades (roll_number : Z) : M (list (string * pyfloat)) :=
  execute_select (sql_select_grades roll_number).

Definition get_subjects : M (list string) :=
  rows <- execute_select sql_select_subjects ;;
  ret (map (fun row : string => row) rows).

End StudentTracker.

(** ** Flask: form data and responses *)

(** [request.form]: the fields in the order they were sent. *)
Definition form : Type := list (string * string).

(** The first value sent for [key], if any. *)
Fixpoint form_first (f : form) (key : string) : option string :=
  match f with
  | [] => None
  | (k, v) :: f' => if String.eqb k key then Some v else form_first f' key
  end.

(** [request.form[key]]: the first value, or the 400 of a missing key. *)
Definition form_get (f : form) (key : string) : M string :=
  match form_first f key with
  | Some v => ret v
  | None => raise (BadRequestKeyError key)
  end.

(** [request.form.getlist(key)] *)
Definition getlist (f : form) (key : string) : list string :=
  map snd (filter (fun kv => String.eqb (fst kv) key) f).

Inductive response : Type :=
| Redirect (location : string)
| Body (text : string) (status : Z).

(** [url_for('index')] *)
Definition url_for_index : string := "/".

(** [bool(s)] of a string: [not s] holds of the empty string only. *)
Definition truthy (s : string) : bool :=
  match s with
  | EmptyString => false
  | String _ _ => true
  end.

(** The test [0 <= grade <= 100]. *)
Definition in_range (grade : pyfloat) : bool :=
  py_le (Fin 0) grade && py_le grade (Fin 100).

Inductive method : Type :=
| GET
| POST.

(** What the templates show for an average: [round(avg, 2)], or the text N/A. *)
Inductive cell : Type :=
| Rounded (x : pyfloat)
| NotAvailable.

(** [render_template] with the keyword arguments of each call. *)
Inductive page : Type :=
| index_html (students_ : list student_row) (subjects : list string)
    (student_averages : list (Z * cell))
| student_details_html (name : string) (roll_number : Z)
    (grades_ : list (string * pyfloat)) (average : cell).

Inductive reply : Type :=
| Response (r : response)
| Template (p : page).

(** [d[k] = v] and [d.get(k)] on a dict, kept in insertion order. *)
Fixpoint dict_set (k : Z) (v : cell) (d : list (Z * cell)) : list (Z * cell) :=
  match d with
  | [] => [(k, v)]
  | (k', v') :: d' => if k' =? k then (k, v) :: d' else (k', v') :: dict_set k v d'
  end.

Fixpoint dict_get (k : Z) (d : list (Z * cell)) : option cell :=
  match d with
  | [] => None
  | (k', v') :: d' => if k' =? k then Some v' else dict_get k d'
  end.

Section Handlers.

(** The built-ins [int(s)] and [float(s)] on strings; [None] is ValueError. *)
Variable py_int : string -> option Z.
Variable py_float : string -> option pyfloat.

Definition int_ (s : string) : M Z :=
  match py_int s with
  | Some n => ret n
  | None => raise (ValueError "invalid literal for int() with base 10")
  end.

Definition add_student (f : form) : M response :=
  name <- form_get f "name" ;;
  roll_number <- form_get f "roll_number" ;;
  if negb (truthy name) || negb (truthy roll_number)
  then ret (Body "Name and Roll Number are required." 400)
  else
    roll_number <- int_ roll_number ;;
    r <- StudentTracker.add_student name roll_number ;;
    let (success, message) := r : bool * string in
    if success then ret (Redirect url_for_index) else ret (Body message 400).

(** The loop over [grades_str]: the first grade that does not parse or is
    out of range ends the request; otherwise the grade is appended. *)
Fixpoint parse_grades (grades_str : list string) (grades_ : list pyfloat)
  : response + list pyfloat :=
  match grades_str with
  | [] => inr grades_
  | g :: rest =>
      match py_float g with
      | Some grade =>
          if negb (in_range grade)
          then inl (Body "Grades must be between 0 and 100." 400)
          else parse_grades rest (grades_ ++ [grade])
      | None => inl (Body "Grades must be numeric." 400)
      end
  end.

Definition add_grades (f : form) : M response :=
  s <- form_get f "roll_number" ;;
  roll_number <- int_ s ;;
  student <- StudentTracker.get_student_by_roll roll_number ;;
  match student with
  | None => ret (Body "Student not found." 404)
  | Some _ =>
      let subjects := getlist f "subject" in
      let grades_str := getlist f "grade" in
      match parse_grades grades_str [] with
      | inl rejected => ret rejected
      | inr grades_ =>
          r <- StudentTracker.add_grades roll_number subjects grades_ ;;
          let (success, message) := r : bool * string in
          if success then ret (Redirect url_for_index) else ret (Body message 500)
      end
  end.

(** The built-ins [round(x, 2)] and [str(x)] on floats. *)
Variable py_round2 : pyfloat -> pyfloat.
Variable str_float : pyfloat -> string.

Definition average_cell (avg : option pyfloat) : cell :=
  match avg with
  | Some a => Rounded (py_round2 a)
  | None => NotAvailable
  end.

(** The loop of [index] over the students, filling [student_averages]. *)
Fixpoint index_averages (students_ : list student_row)
  (student_averages : list (Z * cell)) : M (list (Z * cell)) :=
  match students_ with
  | [] => ret student_averages
  | student :: rest =>
      avg <- StudentTracker.calculate_average (fst student) ;;
      index_averages rest (dict_set (fst student) (average_cell avg) student_averages)
  end.

Definition index : M reply :=
  students_ <- StudentTracker.get_all_students ;;
  subjects <- StudentTracker.get_subjects ;;
  student_averages <- index_averages students_ [] ;;
  ret (Template (index_html students_ subjects student_averages)).

Definition view_details (m : method) (f : form) : M reply :=
  match m with
  | POST =>
      s <- form_get f "roll_number" ;;
      roll_number <- int_ s ;;
      name <- StudentTracker.get_student_by_roll roll_number ;;
      match name with
      | Some (String a rest) =>
          grades_ <- StudentTracker.get_student_grades roll_number ;;
          average <- StudentTracker.calculate_average roll_number ;;
          ret (Template (student_details_html (String a rest) roll_number grades_
                           (average_cell average)))
      | _ => ret (Response (Body "Student not found." 404))
      end
  | GET => ret (Response (Redirect url_for_index))
  end.

Definition subject_topper (f : form) : M response :=
  subject <- form_get f "subject" ;;
  topper <- StudentTracker.get_subject_topper subject ;;
  match topper with
  | Some (name, grade) =>
      ret (Body (String.append "The topper in "
                  (String.append subject
                    (String.append " is "
                      (String.append name
                        (String.append " with a grade of " (str_float grade))))))
             200)
  | None => ret (Body (String.append "No grades found for subject: " subject) 404)
  end.

Definition class_average (f : form) : M response :=
  subject <- form_get f "subject" ;;
  average <- StudentTracker.get_class_average subject ;;
  match average with
  | Some a =>
      ret (Body (String.append "The class average for "
                  (String.append subject
                    (String.append " is " (str_float (py_round2 a)))))
             200)
  | None => ret (Body (String.append "No grades found for subject: " subject) 404)
  end.

End Handlers.

(** ** Decimal literals

    The part of [int(s)] and [float(s)] that reads plain decimal numerals
    (and the spellings nan, inf, -inf), used to run the handlers on concrete
    forms.  The statements about the handlers hold for any [py_int] and
    [py_float]. *)

Definition digit_of (a : ascii) : option Z :=
  let n := Z.of_nat (nat_of_ascii a) in
  if (48 <=? n) && (n <=? 57) then Some (n - 48) else None.

Fixpoint digits_value (s : string) (acc : Z) : option Z :=
  match s with
  | EmptyString => Some acc
  | String a s' =>
      match digit_of a with
      | Some d => digits_value s' (10 * acc + d)
      | None => None
      end
  end.

Definition unsigned_int (s : string) : option Z :=
  match s with
  | EmptyString => None
  | String _ _ => digits_value s 0
  end.

Definition int_literal (s : string) : option Z :=
  match s with
  | String "-" rest => option_map Z.opp (unsigned_int rest)
  | _ => unsigned_int s
  end.

Fixpoint split_dot (s : string) : string * option string :=
  match s with
  | EmptyString => (EmptyString, None)
  | String a s' =>
      if Ascii.eqb a "." then (EmptyString, Some s')
      else let (i, f) := split_dot s' in (String a i, f)
  end.

Definition unsigned_decimal (s : string) : option Q :=
  let (i, f) := split_dot s in
  match unsigned_int i, f with
  | Some n, None => Some (inject_Z n)
  | Some n, Some fs =>
      match digits_value fs 0 with
      | Some m =>
          let scale := 10 ^ Z.of_nat (String.length fs) in
          Some (Qmake (n * scale + m) (Z.to_pos scale))
      | None => None
      end
  | None, _ => None
  end.

Definition float_literal (s : string) : option pyfloat :=
  if String.eqb s "nan" then Some NaN
  else if String.eqb s "inf" then Some PosInf
  else if String.eqb s "-inf" then Some NegInf
  else
    match s with
    | String "-" rest => option_map (fun q => Fin (- q)) (unsigned_decimal rest)
    | _ => option_map Fin (unsigned_decimal s)
    end.

(** ** Sessions, the store invariant and the spec's notions *)

(** A run of [add_student] calls, in order, whatever each one returns. *)
Fixpoint add_students (calls : list (string * Z)) (c : connection) : connection :=
  match calls with
  | [] => c
  | (name, roll_number) :: rest =>
      add_students rest (snd (StudentTracker.add_student name roll_number c))
  end.

(** The (roll_number, name) pairs of a run of calls, in the order of the calls. *)
Definition insertion_order (calls : list (string * Z)) : list student_row :=
  map (fun call => (snd call, fst call)) calls.

Definition rowid_lt (a b : student_row) : Prop := fst a < fst b.

(** What SQLite guarantees of the content of the two relations. *)
Record store_ok (t : tables) : Prop := mkStoreOk {
  students_fit : Forall (fun row : student_row => fits_int64 (fst row) = true) (students t);
  students_sorted : StronglySorted rowid_lt (students t);
  grades_accepted :
    Forall (fun row : grade_row => grade_insert_error (fst (fst row)) (snd row) = None)
      (grades t)
}.

(** All grade values stored for a subject, in row order. *)
Definition subject_grades (t : tables) (subject : string) : list pyfloat :=
  map snd (filter (fun row : grade_row => String.eqb (snd (fst row)) subject) (grades t)).

(** The arithmetic mean of the spec: the sum of the values over their number. *)
Definition arithmetic_mean (qs : list Q) : Q :=
  (fold_right Qplus 0 qs / inject_Z (Z.of_nat (List.length qs)))%Q.

(** The mean as floats compute it: the values summed from 0 in list order,
    then divided by their number, rounded after each operation; no value for
    the empty list, nor when the quotient is not a number. *)
Definition float_mean (vals : list pyfloat) : option pyfloat :=
  match vals with
  | [] => None
  | _ :: _ => real_or_null (fdiv_count (fold_left fadd vals (Fin 0)) (List.length vals))
  end.

(** A rational that binary64 holds: rounding gives it back. *)
Definition binary64 (q : Q) : Prop :=
  exists q', round64 q = Fin q' /\ (q' == q)%Q.

(** Every partial sum of [qs], started from [s], is held by binary64. *)
Fixpoint sums_exact (s : Q) (qs : list Q) : Prop :=
  match qs with
  | [] => True
  | q :: qs' => binary64 (s + q) /\ sums_exact (s + q) qs'
  end.

(** [a < b] on floats, and the spec's "g < 0 or g > 100". *)
Definition py_lt (a b : pyfloat) : bool :=
  match a, b with
  | NaN, _ | _, NaN => false
  | Fin x, Fin y => negb (Qle_bool y x)
  | NegInf, NegInf | PosInf, _ | _, NegInf => false
  | _, _ => true
  end.

Definition below_0_or_above_100 (x : pyfloat) : Prop :=
  py_lt x (Fin 0) = true \/ py_lt (Fin 100) x = true.

(** The rows a batch of (subject, grade) pairs adds for a roll number. *)
Definition batch_rows (roll_number : Z) (pairs : list (string * pyfloat))
  : list grade_row :=
  map (fun p => (roll_number, fst p, snd p)) pairs.

(** Descending order of grade, as ORDER BY grades.grade DESC leaves the rows. *)
Definition grade_ge (a b : string * pyfloat) : Prop := sql_le (snd b) (snd a) = true.

(** A submitted grade that ends the loop of the handler. *)
Definition refused (py_float : string -> option pyfloat) (g : string) : Prop :=
  match py_float g with
  | Some x => in_range x = false
  | None => True
  end.

(** Every grade row belongs to a student. *)
Definition referential (t : tables) : Prop :=
  forall r s g, In (r, s, g) (grades t) -> In r (map fst (students t)).

(** Every stored grade passed the test of the handler. *)
Definition grades_in_range (t : tables) : Prop :=
  Forall (fun row : grade_row => in_range (snd row) = true) (grades t).

(** What a store filled through the two POST handlers satisfies. *)
Definition handler_ok (t : tables) : Prop :=
  store_ok t /\ referential t /\ grades_in_range t.

(** The (subject, grade) pairs stored for a roll number, in row order. *)
Definition student_grades (t : tables) (roll_number : Z) : list (string * pyfloat) :=
  map (fun row : grade_row => (snd (fst row), snd row))
    (filter (fun row : grade_row => fst (fst row) =? roll_number) (grades t)).

(** * Properties *)

(** ** Transactions *)

Lemma view_begin (c : connection) : view (begin c) = view c.
Proof. unfold begin, view. destruct (txn c) eqn:E; simpl; rewrite ?E; reflexivity. Qed.

Lemma disk_begin (c : connection) : disk (begin c) = disk c.
Proof. unfold begin. destruct (txn c) eqn:E; reflexivity. Qed.

Lemma execute_dml_ok (stmt : tables -> result tables) (c : connection) (t : tables) :
  stmt (view c) = Ok t ->
  execute_dml stmt c = (Ok tt, {| disk := disk c; txn := Some t |}).
Proof.
  intros H. unfold execute_dml. cbv zeta.
  rewrite view_begin, H, disk_begin. reflexivity.
Qed.

Lemma execute_dml_raise (stmt : tables -> result tables) (c : connection) (e : exn) :
  stmt (view c) = Raise e ->
  execute_dml stmt c = (Raise e, begin c).
Proof.
  intros H. unfold execute_dml. cbv zeta.
  rewrite view_begin, H. reflexivity.
Qed.

(** ** The students relation *)

Lemma has_rowid_In (n : Z) (l : list student_row) :
  has_rowid n l = true <-> In n (map fst l).
Proof.
  unfold has_rowid. rewrite existsb_exists, in_map_iff. split.
  - intros [row [Hin Heq]]. exists row. split; [now apply Z.eqb_eq | exact Hin].
  - intros [row [Heq Hin]]. exists row. split; [exact Hin | now apply Z.eqb_eq].
Qed.

Lemma has_rowid_false (n : Z) (l : list student_row) :
  ~ In n (map fst l) -> has_rowid n l = false.
Proof.
  intros H. destruct (has_rowid n l) eqn:E; [|reflexivity].
  apply has_rowid_In in E. contradiction.
Qed.

Lemma rowid_insert_perm (r : student_row) (l : list student_row) :
  Permutation (rowid_insert r l) (r :: l).
Proof.
  induction l as [|x l IH]; simpl.
  - apply Permutation_refl.
  - destruct (fst r <? fst x).
    + apply Permutation_refl.
    + eapply perm_trans; [apply perm_skip, IH | apply perm_swap].
Qed.

Lemma rowid_insert_sorted (r : student_row) (l : list student_row) :
  StronglySorted rowid_lt l ->
  ~ In (fst r) (map fst l) ->
  StronglySorted rowid_lt (rowid_insert r l).
Proof.
  induction 1 as [|x l Hs IH Hx]; intros Hnew; simpl.
  - repeat constructor.
  - destruct (fst r <? fst x) eqn:E.
    + apply Z.ltb_lt in E. constructor.
      * constructor; assumption.
      * constructor; [exact E|].
        eapply Forall_impl; [|exact Hx].
        unfold rowid_lt. intros a Ha. lia.
    + apply Z.ltb_ge in E. simpl in Hnew.
      assert (Hne : fst x <> fst r) by (intros Heq; apply Hnew; now left).
      constructor.
      * apply IH. intros Hin. apply Hnew. now right.
      * eapply Permutation_Forall.
        -- apply Permutation_sym, rowid_insert_perm.
        -- constructor; [unfold rowid_lt; lia | exact Hx].
Qed.

(** The row just inserted is the one a lookup by its key finds. *)
Lemma select_after_insert (r : Z) (name : string) (l : list student_row) :
  ~ In r (map fst l) ->
  map snd (filter (fun row : student_row => fst row =? r) (rowid_insert (r, name) l))
  = [name].
Proof.
  induction l as [|x l IH]; intros Hnew; simpl.
  - rewrite Z.eqb_refl. reflexivity.
  - simpl in Hnew.
    assert (Hx : (fst x =? r) = false) by (apply Z.eqb_neq; tauto).
    assert (Hl : filter (fun row : student_row => fst row =? r) l = []).
    { clear -Hnew. induction l as [|y l IHl]; [reflexivity|]. simpl in *.
      destruct (fst y =? r) eqn:E.
      - apply Z.eqb_eq in E. tauto.
      - apply IHl. tauto. }
    destruct (r <? fst x); simpl.
    + rewrite Z.eqb_refl, Hx. simpl. now rewrite Hl.
    + rewrite Hx. apply IH. tauto.
Qed.

Lemma add_student_fresh (c : connection) (name : string) (r : Z) :
  fits_int64 r = true ->
  ~ In r (map fst (students (view c))) ->
  StudentTracker.add_student name r c =
    (Ok (true, "Student added successfully!"%string),
     {| disk := {| students := rowid_insert (r, name) (students (view c));
                   grades := grades (view c) |};
        txn := None |}).
Proof.
  intros Hfit Hnew.
  unfold StudentTracker.add_student, try_except, bind.
  rewrite (execute_dml_ok _ c
             {| students := rowid_insert (r, name) (students (view c));
                grades := grades (view c) |}).
  - reflexivity.
  - unfold sql_insert_student, bind_int. rewrite Hfit.
    now rewrite (has_rowid_false _ _ Hnew).
Qed.

Lemma add_student_duplicate (c : connection) (name : string) (r : Z) :
  fits_int64 r = true ->
  In r (map fst (students (view c))) ->
  StudentTracker.add_student name r c =
    (Ok (false, "Error: Roll number already exists."%string), begin c).
Proof.
  intros Hfit Hin.
  unfold StudentTracker.add_student, try_except, bind.
  rewrite (execute_dml_raise _ c
             (IntegrityError "UNIQUE constraint failed: students.roll_number")).
  - reflexivity.
  - unfold sql_insert_student, bind_int. rewrite Hfit.
    apply has_rowid_In in Hin. now rewrite Hin.
Qed.

Lemma add_student_overflow (c : connection) (name : string) (r : Z) :
  fits_int64 r = false ->
  StudentTracker.add_student name r c = (Raise OverflowError, begin c).
Proof.
  intros Hfit.
  unfold StudentTracker.add_student, try_except, bind.
  rewrite (execute_dml_raise _ c OverflowError).
  - reflexivity.
  - unfold sql_insert_student, bind_int. now rewrite Hfit.
Qed.

Lemma get_student_by_roll_found (c : connection) (r : Z) (name : string)
  (rest : list string) :
  fits_int64 r = true ->
  map snd (filter (fun row : student_row => fst row =? r) (students (view c)))
  = name :: rest ->
  StudentTracker.get_student_by_roll r c = (Ok (Some name), c).
Proof.
  intros Hfit Hsel.
  unfold StudentTracker.get_student_by_roll, bind, execute_select, sql_select_name,
    bind_int.
  rewrite Hfit. cbv beta iota. rewrite Hsel. reflexivity.
Qed.

(** C7, as amended: for every name and every roll number that fits a signed
    64-bit integer and is not yet among the students, [add_student] succeeds
    and commits, and [get_student_by_roll] on the resulting store returns
    that name. *)
Theorem add_student_then_retrievable (c : connection) (name : string)
  (roll_number : Z) :
  fits_int64 roll_number = true ->
  ~ In roll_number (map fst (students (view c))) ->
  exists c',
    StudentTracker.add_student name roll_number c
    = (Ok (true, "Student added successfully!"%string), c') /\
    txn c' = None /\
    In (roll_number, name) (students (disk c')) /\
    StudentTracker.get_student_by_roll roll_number c' = (Ok (Some name), c').
Proof.
  intros Hfit Hnew. eexists. split; [apply add_student_fresh; assumption|].
  split; [reflexivity|]. split.
  - simpl. eapply Permutation_in.
    + apply Permutation_sym, rowid_insert_perm.
    + now left.
  - apply (get_student_by_roll_found _ _ _ []); [exact Hfit|].
    unfold view. simpl. now apply select_after_insert.
Qed.

Lemma add_student_then_retrievable_witness :
  exists c',
    StudentTracker.add_student "Alice" 1 init_db
    = (Ok (true, "Student added successfully!"%string), c') /\
    txn c' = None /\
    In (1, "Alice"%string) (students (disk c')) /\
    StudentTracker.get_student_by_roll 1 c' = (Ok (Some "Alice"%string), c').
Proof.
  apply (add_student_then_retrievable init_db "Alice" 1).
  - reflexivity.
  - simpl. intros H. exact H.
Defined.

(** C7 as stated fails: 2^63 is an integer and no student has it, the name is
    not empty, and yet the call raises instead of succeeding. *)
Lemma add_student_beyond_int64_raises :
  ~ In (2 ^ 63) (map fst (students (view init_db))) /\
  "Alice"%string <> ""%string /\
  fst (StudentTracker.add_student "Alice" (2 ^ 63) init_db) = Raise OverflowError.
Proof.
  split; [intros H; exact H|]. split; [discriminate|]. reflexivity.
Qed.

(** ** Averages *)

Lemma avg_fold_skip (where_ : grade_row -> bool) (rows : list grade_row)
  (p : avg_ctx) :
  (forall row, In row rows -> where_ row = false) ->
  fold_left (avg_step where_) rows p = p.
Proof.
  revert p. induction rows as [|row rows IH]; intros p H; simpl; [reflexivity|].
  unfold avg_step at 2. rewrite (H row (or_introl eq_refl)).
  apply IH. intros row' Hin. apply H. now right.
Qed.

Lemma sql_avg_no_rows (where_ : grade_row -> bool) (rows : list grade_row) :
  (forall row, In row rows -> where_ row = false) ->
  sql_avg where_ rows = None.
Proof.
  intros H. unfold sql_avg. now rewrite avg_fold_skip.
Qed.

(** C6, as amended: for every roll number that fits a signed 64-bit integer
    and has no grade row, [calculate_average] returns [None]: no number, and
    no exception, and the store is left as it was. *)
Theorem calculate_average_no_grades (c : connection) (roll_number : Z) :
  fits_int64 roll_number = true ->
  (forall subject grade, ~ In (roll_number, subject, grade) (grades (view c))) ->
  StudentTracker.calculate_average roll_number c = (Ok None, c).
Proof.
  intros Hfit Hnone.
  unfold StudentTracker.calculate_average, execute_select, sql_avg_by_roll, bind_int.
  rewrite Hfit. rewrite sql_avg_no_rows; [reflexivity|].
  intros [[r s] g] Hin. simpl. apply Z.eqb_neq. intros ->.
  exact (Hnone s g Hin).
Qed.

Lemma calculate_average_no_grades_witness :
  StudentTracker.calculate_average 7
    (snd (StudentTracker.add_grades 1 ["Math"%string] [Fin 90] init_db))
  = (Ok None, snd (StudentTracker.add_grades 1 ["Math"%string] [Fin 90] init_db)).
Proof.
  apply calculate_average_no_grades.
  - reflexivity.
  - simpl. intros subject grade [H | H]; [discriminate H | exact H].
Defined.

(** C6 as stated fails: no grade row has roll number 2^63, and the call is an
    error rather than an absent value. *)
Lemma calculate_average_beyond_int64_raises :
  (forall subject grade, ~ In (2 ^ 63, subject, grade) (grades (view init_db))) /\
  StudentTracker.calculate_average (2 ^ 63) init_db = (Raise OverflowError, init_db).
Proof.
  split; [intros subject grade H; exact H | reflexivity].
Qed.

(** ** Batches of grades *)

Lemma insert_grades_ok (r : Z) (pairs : list (string * pyfloat)) :
  Forall (fun p => grade_insert_error r (snd p) = None) pairs ->
  forall c, exists c',
    StudentTracker.insert_grades r pairs c = (Ok tt, c') /\
    disk c' = disk c /\
    students (view c') = students (view c) /\
    grades (view c') = grades (view c) ++ batch_rows r pairs.
Proof.
  induction 1 as [|[s g] pairs Hg _ IH]; intros c.
  - exists c. simpl. rewrite app_nil_r. repeat split; reflexivity.
  - simpl in Hg. cbn [StudentTracker.insert_grades]. unfold bind.
    rewrite (execute_dml_ok _ c
               {| students := students (view c);
                  grades := grades (view c) ++ [(r, s, g)] |})
      by (unfold sql_insert_grade; now rewrite Hg).
    destruct (IH {| disk := disk c;
                    txn := Some {| students := students (view c);
                                   grades := grades (view c) ++ [(r, s, g)] |} |})
      as [c' [Hrun [Hdisk [Hst Hgr]]]].
    exists c'. split; [exact Hrun|]. split; [exact Hdisk|]. split; [exact Hst|].
    rewrite Hgr. unfold view at 1. simpl. now rewrite <- app_assoc.
Qed.

Lemma insert_grades_fail (r : Z) (pairs : list (string * pyfloat)) :
  Exists (fun p => grade_insert_error r (snd p) <> None) pairs ->
  forall c, exists e c',
    StudentTracker.insert_grades r pairs c = (Raise e, c') /\
    disk c' = disk c /\
    Exists (fun p => grade_insert_error r (snd p) = Some e) pairs.
Proof.
  induction pairs as [|[s g] pairs IH]; intros Hbad c.
  - inversion Hbad.
  - cbn [StudentTracker.insert_grades]. unfold bind.
    destruct (grade_insert_error r g) as [e|] eqn:Hg.
    + exists e, (begin c).
      rewrite (execute_dml_raise _ c e)
        by (unfold sql_insert_grade; now rewrite Hg).
      split; [reflexivity|]. split; [apply disk_begin|].
      now apply Exists_cons_hd.
    + rewrite (execute_dml_ok _ c
                 {| students := students (view c);
                    grades := grades (view c) ++ [(r, s, g)] |})
        by (unfold sql_insert_grade; now rewrite Hg).
      assert (Htl : Exists (fun p => grade_insert_error r (snd p) <> None) pairs).
      { inversion Hbad as [? ? Hhd | ? ? Htl]; subst; [|exact Htl].
        simpl in Hhd. congruence. }
      destruct (IH Htl {| disk := disk c;
                          txn := Some {| students := students (view c);
                                         grades := grades (view c) ++ [(r, s, g)] |} |})
        as [e [c' [Hrun [Hdisk Hex]]]].
      exists e, c'. split; [exact Hrun|]. split; [exact Hdisk|].
      now apply Exists_cons_tl.
Qed.

Lemma add_grades_commit (c : connection) (r : Z) (subjects : list string)
  (grades_ : list pyfloat) :
  Forall (fun p => grade_insert_error r (snd p) = None) (combine subjects grades_) ->
  exists t,
    StudentTracker.add_grades r subjects grades_ c
    = (Ok (true, "Grades added successfully!"%string), {| disk := t; txn := None |}) /\
    students t = students (view c) /\
    grades t = grades (view c) ++ batch_rows r (combine subjects grades_).
Proof.
  intros Hok.
  destruct (insert_grades_ok r _ Hok c) as [c' [Hrun [_ [Hst Hgr]]]].
  exists (view c'). split; [|split; assumption].
  unfold StudentTracker.add_grades, try_except, bind at 1.
  rewrite Hrun. reflexivity.
Qed.

Lemma add_grades_all_or_nothing_core (c : connection) (roll_number : Z)
  (subjects : list string) (grades_ : list pyfloat) :
  Exists (fun p => grade_insert_error roll_number (snd p) <> None)
    (combine subjects grades_) ->
  exists e,
    Exists (fun p => grade_insert_error roll_number (snd p) = Some e)
      (combine subjects grades_) /\
    StudentTracker.add_grades roll_number subjects grades_ c
    = (Ok (false, String.append "Error adding grades: " (exn_str e)),
       {| disk := disk c; txn := None |}).
Proof.
  intros Hbad.
  destruct (insert_grades_fail roll_number _ Hbad c) as [e [c' [Hrun [Hdisk Hex]]]].
  exists e. split; [exact Hex|].
  unfold StudentTracker.add_grades, try_except, bind at 1.
  rewrite Hrun. unfold bind, rollback, ret. now rewrite Hdisk.
Qed.



Lemma combine_firstn_min {A B : Type} (l : list A) (l' : list B) :
  combine (firstn (Nat.min (List.length l) (List.length l')) l)
    (firstn (Nat.min (List.length l) (List.length l')) l')
  = combine l l'.
Proof.
  revert l'. induction l as [|a l IH]; intros [|b l']; simpl; try reflexivity.
  now rewrite IH.
Qed.

Lemma Forall_firstn_min_combine {A B : Type} (P : B -> Prop) (l : list A)
  (l' : list B) :
  Forall P (firstn (Nat.min (List.length l) (List.length l')) l') ->
  Forall (fun p => P (snd p)) (combine l l').
Proof.
  revert l'. induction l as [|a l IH]; intros [|b l']; simpl; intros H;
    try constructor.
  - inversion H; assumption.
  - apply IH. inversion H; assumption.
Qed.

Lemma grade_insert_error_none (r : Z) (g : pyfloat) :
  fits_int64 r = true -> g <> NaN -> grade_insert_error r g = None.
Proof.
  intros Hfit Hg. unfold grade_insert_error, bind_int. rewrite Hfit.
  destruct g; try reflexivity. contradiction.
Qed.

(** C9, as amended: whatever the lengths of [subjects] and [grades], when
    the roll number fits a signed 64-bit integer and none of the first
    min(|subjects|, |grades|) grades is NaN, [add_grades] returns success and
    commits exactly the first min(|subjects|, |grades|) pairs, in order, after
    the rows the connection already saw; the rest of the longer list is
    dropped. *)
Theorem add_grades_zips (c : connection) (roll_number : Z)
  (subjects : list string) (grades_ : list pyfloat) :
  fits_int64 roll_number = true ->
  Forall (fun g => g <> NaN)
    (firstn (Nat.min (List.length subjects) (List.length grades_)) grades_) ->
  exists c',
    StudentTracker.add_grades roll_number subjects grades_ c
    = (Ok (true, "Grades added successfully!"%string), c') /\
    txn c' = None /\
    students (disk c') = students (view c) /\
    grades (disk c')
    = grades (view c)
      ++ batch_rows roll_number
           (combine
              (firstn (Nat.min (List.length subjects) (List.length grades_)) subjects)
              (firstn (Nat.min (List.length subjects) (List.length grades_)) grades_)).
Proof.
  intros Hfit Hnum. rewrite combine_firstn_min.
  assert (Hok : Forall (fun p : string * pyfloat =>
                          grade_insert_error roll_number (snd p) = None)
                  (combine subjects grades_)).
  { apply Forall_firstn_min_combine in Hnum.
    eapply Forall_impl; [|exact Hnum].
    intros p Hp. now apply grade_insert_error_none. }
  destruct (add_grades_commit c roll_number subjects grades_ Hok)
    as [t [Hrun [Hst Hgr]]].
  exists {| disk := t; txn := None |}. simpl. auto.
Qed.

Lemma add_grades_zips_witness :
  exists c',
    StudentTracker.add_grades 1 ["Math"; "Science"; "Art"]%string [Fin 90; Fin 80]
      init_db
    = (Ok (true, "Grades added successfully!"%string), c') /\
    txn c' = None /\
    students (disk c') = [] /\
    grades (disk c') = [(1, "Math"%string, Fin 90); (1, "Science"%string, Fin 80)].
Proof.
  apply (add_grades_zips init_db 1 ["Math"; "Science"; "Art"]%string
           [Fin 90; Fin 80]).
  - reflexivity.
  - simpl. repeat constructor; discriminate.
Defined.

(** C9 as stated fails: the two lists have unequal lengths and the call
    returns the failure flag. *)
Lemma add_grades_unequal_lengths_can_fail :
  List.length ["Math"; "Science"]%string <> List.length [Fin 90] /\
  StudentTracker.add_grades (2 ^ 63) ["Math"; "Science"]%string [Fin 90] init_db
  = (Ok (false,
         "Error adding grades: Python int too large to convert to SQLite INTEGER"%string),
     init_db).
Proof.
  split; [discriminate | reflexivity].
Qed.

(** ** The store invariant *)

Lemma store_ok_init : store_ok (view init_db).
Proof. constructor; simpl; constructor. Qed.

Lemma store_ok_insert_student (t : tables) (name : string) (r : Z) :
  store_ok t ->
  fits_int64 r = true ->
  ~ In r (map fst (students t)) ->
  store_ok {| students := rowid_insert (r, name) (students t); grades := grades t |}.
Proof.
  intros [Hfit Hsorted Hgr] Hr Hnew. constructor; simpl.
  - eapply Permutation_Forall.
    + apply Permutation_sym, rowid_insert_perm.
    + constructor; assumption.
  - now apply rowid_insert_sorted.
  - exact Hgr.
Qed.

(** Every call of [add_student] keeps the invariant, on what the connection
    sees and on what is committed. *)
Lemma add_student_store_ok (c : connection) (name : string) (r : Z) :
  store_ok (view c) -> store_ok (disk c) ->
  store_ok (view (snd (StudentTracker.add_student name r c))) /\
  store_ok (disk (snd (StudentTracker.add_student name r c))).
Proof.
  intros Hview Hdisk.
  destruct (fits_int64 r) eqn:Hfit.
  - destruct (has_rowid r (students (view c))) eqn:Hin.
    + rewrite add_student_duplicate; [|exact Hfit|now apply has_rowid_In].
      simpl. now rewrite view_begin, disk_begin.
    + assert (Hnew : ~ In r (map fst (students (view c))))
        by (intros H; apply has_rowid_In in H; congruence).
      rewrite add_student_fresh by assumption.
      cbn [snd disk]. unfold view at 1. cbn [txn disk].
      split; now apply store_ok_insert_student.
  - rewrite add_student_overflow by exact Hfit.
    simpl. now rewrite view_begin, disk_begin.
Qed.

Lemma add_grades_store_ok (c : connection) (r : Z) (subjects : list string)
  (grades_ : list pyfloat) :
  store_ok (view c) -> store_ok (disk c) ->
  store_ok (view (snd (StudentTracker.add_grades r subjects grades_ c))) /\
  store_ok (disk (snd (StudentTracker.add_grades r subjects grades_ c))).
Proof.
  intros Hview Hdisk.
  destruct (Forall_Exists_dec
              (fun p : string * pyfloat => grade_insert_error r (snd p) = None)
              (fun p => match grade_insert_error r (snd p) as o
                              return {o = None} + {o <> None} with
                        | None => left eq_refl
                        | Some e => right (fun H => eq_ind (Some e)
                                             (fun o => match o with
                                                       | Some _ => True
                                                       | None => False
                                                       end) I None H)
                        end)
              (combine subjects grades_)) as [Hok | Hbad].
  - destruct (add_grades_commit c r subjects grades_ Hok) as [t [Hrun [Hst Hgr]]].
    assert (Hnew : store_ok t).
    { destruct Hview as [Hfit Hsorted Hacc]. constructor.
      - now rewrite Hst.
      - now rewrite Hst.
      - rewrite Hgr. apply Forall_app. split; [exact Hacc|].
        unfold batch_rows. apply Forall_map. exact Hok. }
    rewrite Hrun. cbn [snd disk]. unfold view. cbn [txn disk].
    split; exact Hnew.
  - destruct (add_grades_all_or_nothing_core c r subjects grades_ Hbad)
      as [e [_ Hrun]].
    rewrite Hrun. cbn [snd disk]. unfold view. cbn [txn disk].
    split; exact Hdisk.
Qed.

(** ** Conflicts *)

Section Conflict.

Variable py_int : string -> option Z.

(** C3: in every store that satisfies the invariant, when a student with the
    roll number exists, [add_student] returns the failure flag with its text,
    raises nothing, and leaves both relations as they were, as seen by the
    connection and as committed; the handler turns this outcome into a 400
    response with that text. *)
Theorem add_student_conflict (c : connection) (name : string) (roll_number : Z) :
  store_ok (view c) ->
  In roll_number (map fst (students (view c))) ->
  exists c',
    StudentTracker.add_student name roll_number c
    = (Ok (false, "Error: Roll number already exists."%string), c') /\
    view c' = view c /\
    disk c' = disk c /\
    forall (f : form) (s : string),
      form_first f "name" = Some name ->
      form_first f "roll_number" = Some s ->
      name <> ""%string -> s <> ""%string ->
      py_int s = Some roll_number ->
      add_student py_int f c
      = (Ok (Body "Error: Roll number already exists." 400), c').
Proof.
  intros Hok Hin.
  assert (Hfit : fits_int64 roll_number = true).
  { apply in_map_iff in Hin. destruct Hin as [row [Heq Hrow]].
    pose proof (students_fit _ Hok) as Hall.
    rewrite Forall_forall in Hall. rewrite <- Heq. now apply Hall. }
  exists (begin c). split; [now apply add_student_duplicate|].
  split; [apply view_begin|]. split; [apply disk_begin|].
  intros f s Hname Hroll Hn Hs Hint.
  unfold add_student, bind, form_get. rewrite Hname, Hroll. unfold ret at 1 2.
  destruct name as [|a name']; [contradiction|].
  destruct s as [|b s']; [contradiction|].
  cbn [truthy negb orb]. unfold int_. rewrite Hint. unfold ret at 1.
  rewrite add_student_duplicate by assumption. reflexivity.
Qed.

End Conflict.

Lemma add_student_conflict_witness :
  StudentTracker.add_student "Bob" 1 (add_students [("Alice"%string, 1)] init_db)
  = (Ok (false, "Error: Roll number already exists."%string),
     begin (add_students [("Alice"%string, 1)] init_db)) /\
  add_student int_literal [("name", "Bob"); ("roll_number", "1")]%string
    (add_students [("Alice"%string, 1)] init_db)
  = (Ok (Body "Error: Roll number already exists." 400),
     begin (add_students [("Alice"%string, 1)] init_db)).
Proof.
  destruct (add_student_conflict int_literal
              (add_students [("Alice"%string, 1)] init_db) "Bob" 1)
    as [c' [Hrepo [_ [_ Hhandler]]]].
  - constructor; simpl; repeat constructor.
  - simpl. now left.
  - assert (Hc : c' = begin (add_students [("Alice"%string, 1)] init_db)).
    { vm_compute in Hrepo. injection Hrepo as Hrepo. now rewrite <- Hrepo. }
    subst c'. split; [exact Hrepo|].
    apply (Hhandler _ "1"%string); try reflexivity; discriminate.
Defined.

(** ** Listing the students *)

Lemma get_all_students_view (c : connection) :
  StudentTracker.get_all_students c = (Ok (students (view c)), c).
Proof. reflexivity. Qed.

Lemma add_students_sorted (calls : list (string * Z)) :
  NoDup (map snd calls) ->
  Forall (fun r => fits_int64 r = true) (map snd calls) ->
  forall c,
    StronglySorted rowid_lt (students (view c)) ->
    (forall r, In r (map snd calls) -> ~ In r (map fst (students (view c)))) ->
    Permutation (students (view (add_students calls c)))
      (students (view c) ++ insertion_order calls) /\
    StronglySorted rowid_lt (students (view (add_students calls c))).
Proof.
  induction calls as [|[name r] calls IH]; intros Hnd Hfit c Hsorted Hnew.
  - simpl. rewrite app_nil_r. split; [apply Permutation_refl | exact Hsorted].
  - simpl in Hnd, Hfit. inversion Hnd as [|? ? Hr Hnd']; subst.
    inversion Hfit as [|? ? Hfr Hfit']; subst.
    cbn [add_students].
    rewrite add_student_fresh; [|exact Hfr|apply Hnew; now left].
    cbn [snd].
    set (c1 := {| disk := {| students := rowid_insert (r, name) (students (view c));
                             grades := grades (view c) |};
                  txn := None |}).
    assert (Hview : students (view c1) = rowid_insert (r, name) (students (view c)))
      by reflexivity.
    destruct (IH Hnd' Hfit' c1) as [Hperm Hs].
    + rewrite Hview. apply rowid_insert_sorted; [exact Hsorted|].
      apply Hnew. now left.
    + intros r' Hr' Hin. rewrite Hview in Hin.
      apply (Permutation_in _ (Permutation_map fst (rowid_insert_perm _ _))) in Hin.
      destruct Hin as [Heq | Hin].
      * simpl in Heq. subst r'. contradiction.
      * apply (Hnew r'); [now right | exact Hin].
    + split; [|exact Hs].
      eapply perm_trans; [exact Hperm|]. rewrite Hview.
      eapply perm_trans.
      * apply Permutation_app_tail, rowid_insert_perm.
      * simpl. apply Permutation_middle.
Qed.

(** C8, as amended: in every store that satisfies the invariant, and after
    any further run of [add_student] calls with distinct new roll numbers
    that fit a signed 64-bit integer, [get_all_students] returns all the
    (roll_number, name) pairs, those already there and those added, in
    ascending order of roll number, whatever the order of the calls. *)
Theorem get_all_students_by_roll_number (c : connection)
  (calls : list (string * Z)) :
  store_ok (view c) ->
  NoDup (map snd calls) ->
  Forall (fun r => fits_int64 r = true) (map snd calls) ->
  (forall r, In r (map snd calls) -> ~ In r (map fst (students (view c)))) ->
  exists out,
    StudentTracker.get_all_students (add_students calls c)
    = (Ok out, add_students calls c) /\
    Permutation out (students (view c) ++ insertion_order calls) /\
    StronglySorted rowid_lt out.
Proof.
  intros Hok Hnd Hfit Hnew.
  destruct (add_students_sorted calls Hnd Hfit c (students_sorted _ Hok) Hnew)
    as [Hperm Hsorted].
  exists (students (view (add_students calls c))).
  split; [apply get_all_students_view|]. split; [exact Hperm | exact Hsorted].
Qed.

Lemma get_all_students_by_roll_number_witness :
  exists out,
    StudentTracker.get_all_students
      (add_students [("Bob"%string, 2); ("Alice"%string, 1)] init_db)
    = (Ok out, add_students [("Bob"%string, 2); ("Alice"%string, 1)] init_db) /\
    Permutation out
      (students (view init_db)
       ++ insertion_order [("Bob"%string, 2); ("Alice"%string, 1)]) /\
    StronglySorted rowid_lt out.
Proof.
  apply (get_all_students_by_roll_number init_db
           [("Bob"%string, 2); ("Alice"%string, 1)]).
  - constructor; simpl; constructor.
  - simpl. repeat constructor; simpl; intuition discriminate.
  - simpl. repeat constructor.
  - simpl. intros r _ H. exact H.
Defined.

(** C8 as stated fails: Bob (2) is added before Alice (1), both calls
    succeed, and the listing is not in the order of insertion. *)
Lemma get_all_students_not_insertion_order :
  fst (StudentTracker.get_all_students
         (add_students [("Bob"%string, 2); ("Alice"%string, 1)] init_db))
  = Ok [(1, "Alice"%string); (2, "Bob"%string)] /\
  fst (StudentTracker.get_all_students
         (add_students [("Bob"%string, 2); ("Alice"%string, 1)] init_db))
  <> Ok (insertion_order [("Bob"%string, 2); ("Alice"%string, 1)]).
Proof.
  split; [reflexivity | discriminate].
Qed.

(** ** The mean that AVG computes *)

Lemma round64_proper (x y : Q) : (x == y)%Q -> round64 x = round64 y.
Proof.
  intros H. unfold round64. now rewrite (Qred_complete x y H).
Qed.

Lemma round64_not_nan (q : Q) : round64 q <> NaN.
Proof.
  unfold round64. destruct (Qnum (Qred q)); cbv zeta;
    try destruct (Qle_bool _ _); discriminate.
Qed.

Lemma binary64_proper (x y : Q) : (x == y)%Q -> binary64 x -> binary64 y.
Proof.
  intros H [q' [Hr Hq]]. exists q'. split.
  - now rewrite <- (round64_proper x y H).
  - now rewrite Hq.
Qed.

Lemma sums_exact_proper (qs : list Q) :
  forall s s', (s == s')%Q -> sums_exact s qs -> sums_exact s' qs.
Proof.
  induction qs as [|q qs IH]; intros s s' H; simpl; [trivial|].
  intros [Hb Hrest]. split.
  - apply (binary64_proper (s + q)); [now rewrite H | exact Hb].
  - apply (IH (s + q)%Q); [now rewrite H | exact Hrest].
Qed.

(** One pass over the table with the WHERE clause sums and counts exactly the
    selected values, in row order. *)
Lemma avg_fold_select (where_ : grade_row -> bool) (rows : list grade_row) :
  forall p,
    fold_left (avg_step where_) rows p
    = {| rsum := fold_left fadd (map snd (filter where_ rows)) (rsum p);
         cnt := (cnt p + List.length (filter where_ rows))%nat |}.
Proof.
  induction rows as [|row rows IH]; intros [a n]; simpl.
  - now rewrite Nat.add_0_r.
  - unfold avg_step at 2. destruct (where_ row); rewrite IH; simpl.
    + now rewrite Nat.add_succ_r.
    + reflexivity.
Qed.

Lemma sql_avg_select (where_ : grade_row -> bool) (rows : list grade_row) :
  sql_avg where_ rows = float_mean (map snd (filter where_ rows)).
Proof.
  unfold sql_avg. rewrite avg_fold_select. unfold avg_final. cbn [cnt rsum Nat.add].
  destruct (filter where_ rows) as [|row l]; [reflexivity|].
  cbn [List.length map float_mean]. now rewrite length_map.
Qed.

Lemma fold_left_Qplus (qs : list Q) (a : Q) :
  (fold_left Qplus qs a == a + fold_right Qplus 0 qs)%Q.
Proof.
  revert a. induction qs as [|q qs IH]; intros a; simpl.
  - ring.
  - rewrite IH. ring.
Qed.

Lemma fold_fadd_exact (qs : list Q) :
  forall a s,
    (a == s)%Q -> sums_exact s qs ->
    exists a',
      fold_left fadd (map Fin qs) (Fin a) = Fin a' /\
      (a' == fold_left Qplus qs s)%Q.
Proof.
  induction qs as [|q qs IH]; intros a s Ha Hex; simpl.
  - exists a. split; [reflexivity | exact Ha].
  - destruct Hex as [[q' [Hr Hq]] Hrest].
    assert (Hstep : round64 (a + q) = Fin q').
    { rewrite <- Hr. apply round64_proper. now rewrite Ha. }
    rewrite Hstep. apply (IH q' (s + q)%Q Hq Hrest).
Qed.

(** When no addition and not the division rounds, the float mean is the
    arithmetic mean. *)
Lemma float_mean_exact (qs : list Q) :
  qs <> [] ->
  sums_exact 0 qs ->
  binary64 (arithmetic_mean qs) ->
  exists m, float_mean (map Fin qs) = Some (Fin m) /\ (m == arithmetic_mean qs)%Q.
Proof.
  intros Hne Hsums [m [Hr Hm]].
  destruct (fold_fadd_exact qs 0%Q 0%Q (Qeq_refl 0) Hsums) as [a [Hfold Ha]].
  destruct qs as [|q qs]; [contradiction|].
  exists m. split; [|exact Hm].
  cbn [map float_mean]. change (Fin q :: map Fin qs) with (map Fin (q :: qs)).
  rewrite Hfold, length_map. cbn [fdiv_count].
  assert (Hq : round64 (a / inject_Z (Z.of_nat (List.length (q :: qs)))) = Fin m).
  { rewrite <- Hr. apply round64_proper. unfold arithmetic_mean.
    now rewrite Ha, fold_left_Qplus, Qplus_0_l. }
  now rewrite Hq.
Qed.

Lemma fold_fadd_not_nan (qs : list Q) :
  forall a, a <> NaN -> fold_left fadd (map Fin qs) a <> NaN.
Proof.
  induction qs as [|q qs IH]; intros a Ha; simpl; [exact Ha|].
  apply IH. destruct a; simpl; try discriminate; [apply round64_not_nan | contradiction].
Qed.

(** Finite values always have a float mean: a finite number or, when the
    sum overflows, an infinity. *)
Lemma float_mean_finite (qs : list Q) :
  qs <> [] -> exists v, float_mean (map Fin qs) = Some v.
Proof.
  intros Hne. destruct qs as [|q qs]; [contradiction|].
  cbn [map float_mean]. change (Fin q :: map Fin qs) with (map Fin (q :: qs)).
  pose proof (fold_fadd_not_nan (q :: qs) (Fin 0)) as Hsum.
  destruct (fold_left fadd (map Fin (q :: qs)) (Fin 0)) as [x| | |] eqn:E;
    cbn [fdiv_count].
  - pose proof (round64_not_nan
                  (x / inject_Z (Z.of_nat (List.length (map Fin (q :: qs)))))) as Hq.
    destruct (round64 _); try (eexists; reflexivity). contradiction.
  - eexists; reflexivity.
  - eexists; reflexivity.
  - exfalso. apply Hsum; [discriminate | reflexivity].
Qed.

(** C4, as amended: [get_class_average] returns what AVG computes from all
    the grade values stored for the subject, whatever student they belong to:
    nothing when there is no such row; otherwise their sum, accumulated in
    row order, over their number, each operation rounded to binary64, or
    nothing when that quotient is not a number.  For finite grades the result
    is never absent (it is a float: a finite one, or an infinity when the sum
    overflows), and it is their arithmetic mean whenever every partial sum
    and the quotient are held by binary64, so that nothing is rounded.  The
    store is left as it was. *)
Theorem get_class_average_float_mean (c : connection) (subject : string) :
  StudentTracker.get_class_average subject c
  = (Ok (float_mean (subject_grades (view c) subject)), c) /\
  (subject_grades (view c) subject = [] ->
   StudentTracker.get_class_average subject c = (Ok None, c)) /\
  (forall qs : list Q,
     qs <> [] ->
     subject_grades (view c) subject = map Fin qs ->
     exists v, StudentTracker.get_class_average subject c = (Ok (Some v), c)) /\
  (forall qs : list Q,
     qs <> [] ->
     subject_grades (view c) subject = map Fin qs ->
     sums_exact 0 qs ->
     binary64 (arithmetic_mean qs) ->
     exists m,
       StudentTracker.get_class_average subject c = (Ok (Some (Fin m)), c) /\
       (m == arithmetic_mean qs)%Q).
Proof.
  assert (Hrun : StudentTracker.get_class_average subject c
                 = (Ok (float_mean (subject_grades (view c) subject)), c)).
  { unfold StudentTracker.get_class_average, execute_select, sql_avg_by_subject,
      subject_grades. now rewrite sql_avg_select. }
  rewrite Hrun. split; [reflexivity|]. split; [|split].
  - intros ->. reflexivity.
  - intros qs Hne ->. destruct (float_mean_finite qs Hne) as [v ->]. now exists v.
  - intros qs Hne -> Hsums Hmean.
    destruct (float_mean_exact qs Hne Hsums Hmean) as [m [-> Hm]]. now exists m.
Qed.

Lemma get_class_average_float_mean_witness :
  exists m,
    StudentTracker.get_class_average "Math"
      (snd (StudentTracker.add_grades 1 ["Math"; "Art"; "Math"]%string
              [Fin 90; Fin 10; Fin 80] init_db))
    = (Ok (Some (Fin m)),
       snd (StudentTracker.add_grades 1 ["Math"; "Art"; "Math"]%string
              [Fin 90; Fin 10; Fin 80] init_db)) /\
    (m == 85)%Q.
Proof.
  destruct (get_class_average_float_mean
              (snd (StudentTracker.add_grades 1 ["Math"; "Art"; "Math"]%string
                      [Fin 90; Fin 10; Fin 80] init_db)) "Math")
    as [_ [_ [_ H]]].
  destruct (H [90; 80]%Q) as [m [Hm Hmean]].
  - discriminate.
  - reflexivity.
  - split; [exists 90%Q | split; [exists 170%Q | exact I]];
      (split; [vm_compute; reflexivity | reflexivity]).
  - exists 85%Q. split; [vm_compute; reflexivity | reflexivity].
  - exists m. split; [exact Hm|]. rewrite Hmean. reflexivity.
Defined.

(** C4 as stated fails.  With the rows +inf and -inf the subject has grade
    rows and the result is absent.  With the two floats written 0.1 and 0.2
    the result is the float written 0.15000000000000002, which is not the
    arithmetic mean of the two stored values. *)
Lemma get_class_average_not_the_mean :
  (subject_grades
     (view (snd (StudentTracker.add_grades 1 ["Math"; "Math"]%string
                   [PosInf; NegInf] init_db))) "Math"
   = [PosInf; NegInf] /\
   fst (StudentTracker.get_class_average "Math"
          (snd (StudentTracker.add_grades 1 ["Math"; "Math"]%string
                  [PosInf; NegInf] init_db)))
   = Ok None) /\
  (fst (StudentTracker.get_class_average "Math"
          (snd (StudentTracker.add_grades 1 ["Math"; "Math"]%string
                  [Fin (3602879701896397 # 36028797018963968);
                   Fin (3602879701896397 # 18014398509481984)] init_db)))
   = Ok (Some (Fin (1351079888211149 # 9007199254740992))) /\
   ~ (1351079888211149 # 9007199254740992
      == arithmetic_mean [3602879701896397 # 36028797018963968;
                          3602879701896397 # 18014398509481984])%Q).
Proof.
  split; [split; reflexivity|]. split; [vm_compute; reflexivity|].
  vm_compute. discriminate.
Qed.

(** ** The topper *)

Lemma sql_le_refl (a : pyfloat) : sql_le a a = true.
Proof.
  destruct a; simpl; try reflexivity. apply Qle_bool_iff, Qle_refl.
Qed.

Lemma sql_le_total (a b : pyfloat) : sql_le a b = false -> sql_le b a = true.
Proof.
  destruct a, b; simpl; try reflexivity; try discriminate.
  intros H. apply Qle_bool_iff. apply Qlt_le_weak, Qnot_le_lt.
  intros Hle. apply Qle_bool_iff in Hle. congruence.
Qed.

Lemma sql_le_trans (a b c : pyfloat) :
  sql_le a b = true -> sql_le b c = true -> sql_le a c = true.
Proof.
  destruct a, b, c; simpl; try reflexivity; try discriminate.
  rewrite !Qle_bool_iff. apply Qle_trans.
Qed.

Lemma insert_desc_perm (x : string * pyfloat) (l : list (string * pyfloat)) :
  Permutation (insert_desc x l) (x :: l).
Proof.
  induction l as [|y l IH]; simpl.
  - apply Permutation_refl.
  - destruct (sql_le (snd y) (snd x)).
    + apply Permutation_refl.
    + eapply perm_trans; [apply perm_skip, IH | apply perm_swap].
Qed.

Lemma order_by_grade_desc_perm (l : list (string * pyfloat)) :
  Permutation (order_by_grade_desc l) l.
Proof.
  induction l as [|x l IH]; simpl.
  - apply perm_nil.
  - eapply perm_trans; [apply insert_desc_perm | now apply perm_skip].
Qed.

Lemma insert_desc_sorted (x : string * pyfloat) (l : list (string * pyfloat)) :
  StronglySorted grade_ge l -> StronglySorted grade_ge (insert_desc x l).
Proof.
  induction 1 as [|y l Hs IH Hy]; simpl.
  - repeat constructor.
  - destruct (sql_le (snd y) (snd x)) eqn:E.
    + constructor; [now constructor|].
      constructor; [exact E|].
      eapply Forall_impl; [|exact Hy].
      intros z Hz. unfold grade_ge in *. eapply sql_le_trans; eassumption.
    + constructor; [exact IH|].
      eapply Permutation_Forall.
      * apply Permutation_sym, insert_desc_perm.
      * constructor; [now apply sql_le_total | exact Hy].
Qed.

Lemma order_by_grade_desc_sorted (l : list (string * pyfloat)) :
  StronglySorted grade_ge (order_by_grade_desc l).
Proof.
  induction l as [|x l IH]; simpl.
  - constructor.
  - now apply insert_desc_sorted.
Qed.

(** The first row of the ordered result is a row of the input, and no row of
    the input has a higher grade. *)
Lemma order_by_grade_desc_head (l : list (string * pyfloat)) (x : string * pyfloat) :
  hd_error (order_by_grade_desc l) = Some x ->
  In x l /\ forall y, In y l -> sql_le (snd y) (snd x) = true.
Proof.
  intros Hhd.
  pose proof (order_by_grade_desc_perm l) as Hperm.
  pose proof (order_by_grade_desc_sorted l) as Hsorted.
  destruct (order_by_grade_desc l) as [|x' rest]; [discriminate|].
  simpl in Hhd. injection Hhd as ->.
  split.
  - eapply Permutation_in; [exact Hperm | now left].
  - intros y Hy.
    apply (Permutation_in _ (Permutation_sym Hperm)) in Hy.
    destruct Hy as [-> | Hy]; [apply sql_le_refl|].
    inversion Hsorted as [|? ? _ Hall]; subst.
    rewrite Forall_forall in Hall. exact (Hall y Hy).
Qed.

Lemma order_by_grade_desc_nil (l : list (string * pyfloat)) :
  hd_error (order_by_grade_desc l) = None <-> l = [].
Proof.
  split.
  - intros Hhd. pose proof (order_by_grade_desc_perm l) as Hperm.
    destruct (order_by_grade_desc l); [|discriminate].
    now apply Permutation_nil.
  - intros ->. reflexivity.
Qed.

Lemma sql_join_subject_In (subject : string) (t : tables) (name : string)
  (g : pyfloat) :
  In (name, g) (sql_join_subject subject t) <->
  exists r, In (r, name) (students t) /\ In (r, subject, g) (grades t).
Proof.
  unfold sql_join_subject. rewrite in_flat_map. split.
  - intros [[r n] [Hst Hin]]. apply in_map_iff in Hin.
    destruct Hin as [[[r' s] g'] [Heq Hrow]]. simpl in Heq.
    injection Heq as -> ->.
    apply filter_In in Hrow. destruct Hrow as [Hrow Hcond]. simpl in Hcond.
    apply andb_true_iff in Hcond. destruct Hcond as [Hr Hs].
    apply Z.eqb_eq in Hr. apply String.eqb_eq in Hs. subst.
    exists r'. split; assumption.
  - intros [r [Hst Hrow]]. exists (r, name). split; [exact Hst|].
    apply in_map_iff. exists (r, subject, g). split; [reflexivity|].
    apply filter_In. split; [exact Hrow|]. simpl.
    now rewrite Z.eqb_refl, String.eqb_refl.
Qed.

Lemma get_subject_topper_run (c : connection) (subject : string) :
  StudentTracker.get_subject_topper subject c
  = (Ok (hd_error (order_by_grade_desc (sql_join_subject subject (view c)))), c).
Proof.
  unfold StudentTracker.get_subject_topper, bind, execute_select,
    sql_select_topper, ret, fetchone.
  destruct (order_by_grade_desc (sql_join_subject subject (view c))); reflexivity.
Qed.

(** C5, as amended: [get_subject_topper] looks only at the grade rows of the
    subject whose roll number is that of a student.  It returns [None]
    exactly when there is no such row; otherwise it returns the name and
    grade of one such row, and no such row has a higher grade.  In a store
    where every grade row belongs to a student, these are all the grade rows
    of the subject. *)
Theorem get_subject_topper_max_of_joined (c : connection) (subject : string) :
  exists top,
    StudentTracker.get_subject_topper subject c = (Ok top, c) /\
    (top = None <->
     forall r name g,
       In (r, name) (students (view c)) ->
       In (r, subject, g) (grades (view c)) -> False) /\
    (forall name g,
       top = Some (name, g) ->
       (exists r, In (r, name) (students (view c)) /\
                  In (r, subject, g) (grades (view c))) /\
       (forall r name' g',
          In (r, name') (students (view c)) ->
          In (r, subject, g') (grades (view c)) ->
          sql_le g' g = true)) /\
    ((forall r s g, In (r, s, g) (grades (view c)) ->
                    In r (map fst (students (view c)))) ->
     (top = None <-> forall r g, ~ In (r, subject, g) (grades (view c))) /\
     (forall name g,
        top = Some (name, g) ->
        forall r g', In (r, subject, g') (grades (view c)) -> sql_le g' g = true)).
Proof.
  exists (hd_error (order_by_grade_desc (sql_join_subject subject (view c)))).
  split; [apply get_subject_topper_run|].
  assert (Hnone :
    hd_error (order_by_grade_desc (sql_join_subject subject (view c))) = None <->
    forall r name g,
      In (r, name) (students (view c)) ->
      In (r, subject, g) (grades (view c)) -> False).
  { rewrite order_by_grade_desc_nil. split.
    - intros Hnil r name g Hst Hrow.
      assert (Hin : In (name, g) (sql_join_subject subject (view c)))
        by (apply sql_join_subject_In; eauto).
      rewrite Hnil in Hin. exact Hin.
    - intros Hno. destruct (sql_join_subject subject (view c)) as [|[n g] l] eqn:E;
        [reflexivity|].
      assert (Hin : In (n, g) (sql_join_subject subject (view c)))
        by (rewrite E; now left).
      apply sql_join_subject_In in Hin. destruct Hin as [r [Hst Hrow]].
      exfalso. eauto. }
  assert (Hsome : forall name g,
    hd_error (order_by_grade_desc (sql_join_subject subject (view c)))
    = Some (name, g) ->
    (exists r, In (r, name) (students (view c)) /\
               In (r, subject, g) (grades (view c))) /\
    (forall r name' g',
       In (r, name') (students (view c)) ->
       In (r, subject, g') (grades (view c)) ->
       sql_le g' g = true)).
  { intros name g Hhd. apply order_by_grade_desc_head in Hhd.
    destruct Hhd as [Hin Hmax]. split.
    - now apply sql_join_subject_In.
    - intros r name' g' Hst Hrow.
      apply (Hmax (name', g')). apply sql_join_subject_In. eauto. }
  split; [exact Hnone|]. split; [exact Hsome|].
  intros Hri. split.
  - rewrite Hnone. split.
    + intros Hno r g Hrow.
      destruct (proj1 (in_map_iff _ _ _) (Hri _ _ _ Hrow)) as [[r' n] [Heq Hst]].
      simpl in Heq. subst r'. eauto.
    + intros Hno r name g _ Hrow. exact (Hno r g Hrow).
  - intros name g Htop r g' Hrow.
    destruct (proj1 (in_map_iff _ _ _) (Hri _ _ _ Hrow)) as [[r' n] [Heq Hst]].
    simpl in Heq. subst r'.
    exact (proj2 (Hsome name g Htop) r n g' Hst Hrow).
Qed.

(** C5 as stated fails: after [add_grades] for roll number 99, which no
    student has, the subject has a grade row and the topper is absent; and
    with Alice (1) at 40 next to that row at 50, the grade returned is not
    the highest recorded for the subject. *)
Lemma get_subject_topper_misses_unmatched_rows :
  (In (99, "Math"%string, Fin 50)
     (grades (view (snd (StudentTracker.add_grades 99 ["Math"%string] [Fin 50]
                           init_db)))) /\
   fst (StudentTracker.get_subject_topper "Math"
          (snd (StudentTracker.add_grades 99 ["Math"%string] [Fin 50] init_db)))
   = Ok None) /\
  (In (99, "Math"%string, Fin 50)
     (grades (view (snd (StudentTracker.add_grades 99 ["Math"%string] [Fin 50]
                           (snd (StudentTracker.add_grades 1 ["Math"%string] [Fin 40]
                                   (add_students [("Alice"%string, 1)] init_db))))))) /\
   fst (StudentTracker.get_subject_topper "Math"
          (snd (StudentTracker.add_grades 99 ["Math"%string] [Fin 50]
                  (snd (StudentTracker.add_grades 1 ["Math"%string] [Fin 40]
                          (add_students [("Alice"%string, 1)] init_db))))))
   = Ok (Some ("Alice"%string, Fin 40)) /\
   sql_le (Fin 50) (Fin 40) = false).
Proof.
  split; [split; [simpl; now left | reflexivity]|].
  split; [simpl; right; now left|]. split; reflexivity.
Qed.

(** C10, as amended: when the subject has grade rows and none of them has
    the roll number of a student, [get_subject_topper] returns [None], while
    [get_class_average] still aggregates those rows: it returns what AVG
    computes from them, which is never absent when their grades are finite.
    The average reads the grades relation only, so any two stores with the
    same grade rows give the same average. *)
Theorem unmatched_rows_topper_absent_average_computed (c : connection)
  (subject : string) :
  (exists r g, In (r, subject, g) (grades (view c))) ->
  (forall r g, In (r, subject, g) (grades (view c)) ->
               ~ In r (map fst (students (view c)))) ->
  StudentTracker.get_subject_topper subject c = (Ok None, c) /\
  subject_grades (view c) subject <> [] /\
  StudentTracker.get_class_average subject c
  = (Ok (float_mean (subject_grades (view c) subject)), c) /\
  (forall qs : list Q,
     subject_grades (view c) subject = map Fin qs ->
     exists v, StudentTracker.get_class_average subject c = (Ok (Some v), c)) /\
  (forall c2 : connection,
     grades (view c2) = grades (view c) ->
     fst (StudentTracker.get_class_average subject c2)
     = fst (StudentTracker.get_class_average subject c)).
Proof.
  intros [r0 [g0 Hrow0]] Horphan.
  assert (Hrows : subject_grades (view c) subject <> []).
  { unfold subject_grades. intros Hnil. apply map_eq_nil in Hnil.
    assert (Hin : In (r0, subject, g0)
                    (filter (fun row : grade_row => String.eqb (snd (fst row)) subject)
                       (grades (view c)))).
    { apply filter_In. split; [exact Hrow0|]. simpl. apply String.eqb_refl. }
    rewrite Hnil in Hin. exact Hin. }
  assert (Hrun : StudentTracker.get_class_average subject c
                 = (Ok (float_mean (subject_grades (view c) subject)), c)).
  { unfold StudentTracker.get_class_average, execute_select, sql_avg_by_subject,
      subject_grades. now rewrite sql_avg_select. }
  split; [|split; [exact Hrows | split; [exact Hrun | split]]].
  - rewrite get_subject_topper_run. f_equal. f_equal.
    apply order_by_grade_desc_nil.
    destruct (sql_join_subject subject (view c)) as [|[n g] l] eqn:E; [reflexivity|].
    assert (Hin : In (n, g) (sql_join_subject subject (view c)))
      by (rewrite E; now left).
    apply sql_join_subject_In in Hin. destruct Hin as [r [Hst Hrow]].
    exfalso. apply (Horphan r g Hrow).
    apply in_map_iff. exists (r, n). split; [reflexivity | exact Hst].
  - intros qs Hsel. rewrite Hrun.
    assert (Hne : qs <> []) by (intros ->; now apply Hrows).
    rewrite Hsel. destruct (float_mean_finite qs Hne) as [v ->]. now exists v.
  - intros c2 Hsame.
    unfold StudentTracker.get_class_average, execute_select, sql_avg_by_subject.
    simpl. now rewrite Hsame.
Qed.

Lemma unmatched_rows_topper_absent_average_computed_witness :
  StudentTracker.get_subject_topper "Math"
    (snd (StudentTracker.add_grades 99 ["Math"; "Math"]%string [Fin 50; Fin 70]
            (add_students [("Alice"%string, 1)] init_db)))
  = (Ok None,
     snd (StudentTracker.add_grades 99 ["Math"; "Math"]%string [Fin 50; Fin 70]
            (add_students [("Alice"%string, 1)] init_db))) /\
  exists v,
    StudentTracker.get_class_average "Math"
      (snd (StudentTracker.add_grades 99 ["Math"; "Math"]%string [Fin 50; Fin 70]
              (add_students [("Alice"%string, 1)] init_db)))
    = (Ok (Some v),
       snd (StudentTracker.add_grades 99 ["Math"; "Math"]%string [Fin 50; Fin 70]
              (add_students [("Alice"%string, 1)] init_db))).
Proof.
  destruct (unmatched_rows_topper_absent_average_computed
              (snd (StudentTracker.add_grades 99 ["Math"; "Math"]%string
                      [Fin 50; Fin 70]
                      (add_students [("Alice"%string, 1)] init_db))) "Math")
    as [Htop [_ [_ [Havg _]]]].
  - exists 99, (Fin 50). simpl. now left.
  - simpl. intros r g [H | [H | H]] [Hr | Hr]; try contradiction;
      injection H as <- _; discriminate Hr.
  - split; [exact Htop|]. apply (Havg [50; 70]%Q). reflexivity.
Defined.

(** C10 as stated fails: the only rows of the subject are +inf and -inf for
    roll number 99, which no student has; the topper is absent, and the class
    average is absent too instead of a number. *)
Lemma unmatched_rows_average_can_be_absent :
  (forall r g,
     In (r, "Math"%string, g)
       (grades (view (snd (StudentTracker.add_grades 99 ["Math"; "Math"]%string
                             [PosInf; NegInf]
                             (add_students [("Alice"%string, 1)] init_db)))))
     -> r = 99) /\
  ~ In 99 (map fst
             (students (view (snd (StudentTracker.add_grades 99
                                     ["Math"; "Math"]%string [PosInf; NegInf]
                                     (add_students [("Alice"%string, 1)] init_db)))))) /\
  fst (StudentTracker.get_subject_topper "Math"
         (snd (StudentTracker.add_grades 99 ["Math"; "Math"]%string [PosInf; NegInf]
                 (add_students [("Alice"%string, 1)] init_db))))
  = Ok None /\
  fst (StudentTracker.get_class_average "Math"
         (snd (StudentTracker.add_grades 99 ["Math"; "Math"]%string [PosInf; NegInf]
                 (add_students [("Alice"%string, 1)] init_db))))
  = Ok None.
Proof.
  split; [|split; [|split; reflexivity]].
  - simpl. intros r g [H | [H | H]]; try contradiction; now injection H as <- _.
  - simpl. intros [H | H]; [discriminate H | exact H].
Qed.

(** ** Validation of submitted grades *)

Lemma in_range_false_iff (x : pyfloat) :
  in_range x = false <-> x = NaN \/ below_0_or_above_100 x.
Proof.
  unfold in_range, below_0_or_above_100.
  destruct x as [q| | |]; simpl.
  - destruct (Qle_bool 0 q), (Qle_bool q 100); simpl; split; intros H;
      try discriminate; auto;
      destruct H as [H | [H | H]]; discriminate.
  - split; auto.
  - split; auto.
  - split; auto.
Qed.

Lemma add_grades_returns (r : Z) (subjects : list string) (grades_ : list pyfloat)
  (c : connection) :
  exists flag msg c',
    StudentTracker.add_grades r subjects grades_ c = (Ok (flag, msg), c').
Proof.
  unfold StudentTracker.add_grades, try_except, bind at 1.
  destruct (StudentTracker.insert_grades r (combine subjects grades_) c)
    as [[u | e] c1]; eexists; eexists; eexists; reflexivity.
Qed.

Section Validation.

Variable py_int : string -> option Z.
Variable py_float : string -> option pyfloat.

Lemma parse_grades_inl (grades_str : list string) :
  forall (acc : list pyfloat) (resp : response),
    parse_grades py_float grades_str acc = inl resp ->
    (exists msg, resp = Body msg 400) /\ Exists (refused py_float) grades_str.
Proof.
  induction grades_str as [|g rest IH]; intros acc resp H; simpl in H.
  - discriminate.
  - destruct (py_float g) as [x|] eqn:Hg.
    + destruct (in_range x) eqn:Hx; simpl in H.
      * destruct (IH _ _ H) as [Hmsg Hex]. split; [exact Hmsg|].
        now apply Exists_cons_tl.
      * injection H as <-. split; [eexists; reflexivity|].
        apply Exists_cons_hd. unfold refused. now rewrite Hg.
    + injection H as <-. split; [eexists; reflexivity|].
      apply Exists_cons_hd. unfold refused. now rewrite Hg.
Qed.

Lemma parse_grades_inr (grades_str : list string) :
  forall (acc out : list pyfloat),
    parse_grades py_float grades_str acc = inr out ->
    Forall (fun g => ~ refused py_float g) grades_str.
Proof.
  induction grades_str as [|g rest IH]; intros acc out H; simpl in H.
  - constructor.
  - destruct (py_float g) as [x|] eqn:Hg; [|discriminate].
    destruct (in_range x) eqn:Hx; simpl in H; [|discriminate].
    constructor; [|eapply IH; exact H].
    unfold refused. rewrite Hg. congruence.
Qed.

Lemma refused_iff (g : string) :
  refused py_float g <->
  py_float g = None \/ py_float g = Some NaN \/
  exists x, py_float g = Some x /\ below_0_or_above_100 x.
Proof.
  unfold refused. destruct (py_float g) as [x|].
  - rewrite in_range_false_iff. split.
    + intros [-> | H]; [right; now left | right; right; eauto].
    + intros [H | [H | [y [H Hy]]]]; [discriminate | | ].
      * injection H as ->. now left.
      * injection H as ->. now right.
  - split; auto.
Qed.

Lemma add_grades_run (c : connection) (f : form) (s : string)
  (roll_number : Z) (name : string) :
  form_first f "roll_number" = Some s ->
  py_int s = Some roll_number ->
  StudentTracker.get_student_by_roll roll_number c = (Ok (Some name), c) ->
  add_grades py_int py_float f c
  = match parse_grades py_float (getlist f "grade") [] with
    | inl rejected => (Ok rejected, c)
    | inr grades_ =>
        match StudentTracker.add_grades roll_number (getlist f "subject") grades_ c with
        | (Ok (true, _), c') => (Ok (Redirect url_for_index), c')
        | (Ok (false, message), c') => (Ok (Body message 500), c')
        | (Raise e, c') => (Raise e, c')
        end
    end.
Proof.
  intros Hs Hint Hfound.
  unfold add_grades, bind, form_get, int_. rewrite Hs.
  cbv beta iota delta [ret]. rewrite Hint. cbv beta iota. rewrite Hfound.
  cbv beta iota.
  destruct (parse_grades py_float (getlist f "grade") []) as [resp | out];
    [reflexivity|].
  destruct (StudentTracker.add_grades roll_number (getlist f "subject") out c)
    as [[[[|] msg] | e] c']; reflexivity.
Qed.

(** C2, as amended: for a request whose roll number is that of an existing
    student, the handler answers 400 if and only if one of the submitted
    grades does not parse as a float, or is NaN, or is below 0 or above 100;
    and a request answered 400 leaves the connection as it was: nothing was
    inserted. *)
Theorem add_grades_rejects_iff (c : connection) (f : form) (s : string)
  (roll_number : Z) (name : string) :
  form_first f "roll_number" = Some s ->
  py_int s = Some roll_number ->
  StudentTracker.get_student_by_roll roll_number c = (Ok (Some name), c) ->
  ((exists msg, fst (add_grades py_int py_float f c) = Ok (Body msg 400)) <->
   Exists
     (fun g =>
        py_float g = None \/ py_float g = Some NaN \/
        exists x, py_float g = Some x /\ below_0_or_above_100 x)
     (getlist f "grade")) /\
  (forall msg,
     fst (add_grades py_int py_float f c) = Ok (Body msg 400) ->
     snd (add_grades py_int py_float f c) = c).
Proof.
  intros Hs Hint Hfound.
  rewrite (add_grades_run c f s roll_number name Hs Hint Hfound).
  destruct (parse_grades py_float (getlist f "grade") []) as [resp | out] eqn:Hparse.
  - destruct (parse_grades_inl _ _ _ Hparse) as [[msg ->] Hex].
    cbn [fst snd]. split; [|reflexivity].
    split; [intros _ | intros _; eexists; reflexivity].
    eapply Exists_impl; [|exact Hex]. intros g. apply refused_iff.
  - apply parse_grades_inr in Hparse.
    assert (Hnone :
      ~ Exists
          (fun g =>
             py_float g = None \/ py_float g = Some NaN \/
             exists x, py_float g = Some x /\ below_0_or_above_100 x)
          (getlist f "grade")).
    { intros Hex. apply Exists_exists in Hex.
      destruct Hex as [g [Hin Hg]]. rewrite Forall_forall in Hparse.
      apply (Hparse g Hin). now apply refused_iff. }
    destruct (StudentTracker.add_grades roll_number (getlist f "subject") out c)
      as [[[[|] msg'] | e] c']; cbn [fst snd];
      (split; [split; [intros [msg H]; discriminate H | intros Hex; contradiction]
              | intros msg H; discriminate H]).
Qed.

End Validation.

Lemma add_grades_rejects_iff_witness :
  fst (add_grades int_literal float_literal
         [("roll_number", "1"); ("subject", "Math"); ("grade", "150")]%string
         (add_students [("Alice"%string, 1)] init_db))
  = Ok (Body "Grades must be between 0 and 100." 400) /\
  snd (add_grades int_literal float_literal
         [("roll_number", "1"); ("subject", "Math"); ("grade", "150")]%string
         (add_students [("Alice"%string, 1)] init_db))
  = add_students [("Alice"%string, 1)] init_db.
Proof.
  destruct (add_grades_rejects_iff int_literal float_literal
              (add_students [("Alice"%string, 1)] init_db)
              [("roll_number", "1"); ("subject", "Math"); ("grade", "150")]%string
              "1"%string 1 "Alice"%string)
    as [_ Hsame]; try reflexivity.
  split; [reflexivity|].
  apply (Hsame "Grades must be between 0 and 100."%string). reflexivity.
Defined.

(** C2 as stated fails: the grade nan parses as a float that is neither below
    0 nor above 100, and the request is answered 400. *)
Lemma add_grades_rejects_nan :
  fst (add_grades int_literal float_literal
         [("roll_number", "1"); ("subject", "Math"); ("grade", "nan")]%string
         (add_students [("Alice"%string, 1)] init_db))
  = Ok (Body "Grades must be between 0 and 100." 400) /\
  ~ Exists
      (fun g =>
         float_literal g = None \/
         exists x, float_literal g = Some x /\ below_0_or_above_100 x)
      (getlist [("roll_number", "1"); ("subject", "Math"); ("grade", "nan")]%string
         "grade").
Proof.
  split; [reflexivity|].
  intros H. apply Exists_exists in H. destruct H as [g [Hin Hg]].
  simpl in Hin. destruct Hin as [<- | []].
  destruct Hg as [Hg | [x [Hx [Hlow | Hhigh]]]].
  - discriminate Hg.
  - vm_compute in Hx. injection Hx as <-. discriminate Hlow.
  - vm_compute in Hx. injection Hx as <-. discriminate Hhigh.
Qed.

(** ** The scenario of the spec

    Alice (1) with Math 90 and Science 80: her average is 85, and she is the
    topper in Math with 90. *)
Example scenario_alice :
  let c := snd (StudentTracker.add_grades 1 ["Math"; "Science"]%string
                  [Fin 90; Fin 80] (add_students [("Alice"%string, 1)] init_db)) in
  fst (StudentTracker.calculate_average 1 c) = Ok (Some (Fin 85)) /\
  fst (StudentTracker.get_subject_topper "Math" c) = Ok (Some ("Alice"%string, Fin 90)).
Proof. repeat split. Qed.

(** * Further properties of the handlers and of the repository *)

(** ** POST /add_student *)

Lemma get_student_by_roll_fits (c c' : connection) (r : Z) (found : option string) :
  StudentTracker.get_student_by_roll r c = (Ok found, c') ->
  fits_int64 r = true.
Proof.
  unfold StudentTracker.get_student_by_roll, bind, execute_select, sql_select_name,
    bind_int.
  destruct (fits_int64 r); [reflexivity | discriminate].
Qed.

Lemma get_student_by_roll_absent (c : connection) (r : Z) :
  fits_int64 r = true ->
  ~ In r (map fst (students (view c))) ->
  StudentTracker.get_student_by_roll r c = (Ok None, c).
Proof.
  intros Hfit Hnew.
  unfold StudentTracker.get_student_by_roll, bind, execute_select, sql_select_name,
    bind_int.
  rewrite Hfit. cbv beta iota.
  assert (Hnil : filter (fun row : student_row => fst row =? r) (students (view c)) = []).
  { induction (students (view c)) as [|x l IH]; [reflexivity|]. simpl in *.
    destruct (fst x =? r) eqn:E.
    - apply Z.eqb_eq in E. tauto.
    - apply IH. tauto. }
  rewrite Hnil. reflexivity.
Qed.

Lemma get_student_by_roll_overflow (c : connection) (r : Z) :
  fits_int64 r = false ->
  StudentTracker.get_student_by_roll r c = (Raise OverflowError, c).
Proof.
  intros Hfit.
  unfold StudentTracker.get_student_by_roll, bind, execute_select, sql_select_name,
    bind_int.
  now rewrite Hfit.
Qed.

Section AddStudentHandler.

Variable py_int : string -> option Z.

Lemma add_student_handler_run (c : connection) (f : form) (a b : ascii)
  (name s : string) (r : Z) :
  form_first f "name" = Some (String a name) ->
  form_first f "roll_number" = Some (String b s) ->
  py_int (String b s) = Some r ->
  add_student py_int f c
  = match StudentTracker.add_student (String a name) r c with
    | (Ok (true, _), c') => (Ok (Redirect url_for_index), c')
    | (Ok (false, message), c') => (Ok (Body message 400), c')
    | (Raise e, c') => (Raise e, c')
    end.
Proof.
  intros Hname Hroll Hint.
  unfold add_student, bind, form_get, int_. rewrite Hname, Hroll.
  cbv beta iota delta [ret truthy negb orb]. rewrite Hint. cbv beta iota.
  destruct (StudentTracker.add_student (String a name) r c)
    as [[[[|] msg] | e] c']; reflexivity.
Qed.

(** X1: a request without the field name, or without the field roll_number,
    raises the 400 of a missing key; a request in which one of the two is
    the empty string is answered 400 with the text of the handler.  In all
    three cases the connection is left as it was: the repository is not
    called. *)
Theorem add_student_missing_or_empty_field (c : connection) (f : form) :
  (form_first f "name" = None ->
   add_student py_int f c = (Raise (BadRequestKeyError "name"), c)) /\
  (forall name,
     form_first f "name" = Some name ->
     form_first f "roll_number" = None ->
     add_student py_int f c = (Raise (BadRequestKeyError "roll_number"), c)) /\
  (forall name s,
     form_first f "name" = Some name ->
     form_first f "roll_number" = Some s ->
     name = ""%string \/ s = ""%string ->
     add_student py_int f c
     = (Ok (Body "Name and Roll Number are required." 400), c)).
Proof.
  unfold add_student, bind, form_get. repeat split.
  - intros H. now rewrite H.
  - intros name Hn Hr. now rewrite Hn, Hr.
  - intros name s Hn Hr Hempty. rewrite Hn, Hr. cbv beta iota delta [ret].
    destruct Hempty as [-> | ->]; [reflexivity|].
    destruct name; reflexivity.
Qed.

(** X2: with both fields filled in, a roll number that [int] does not accept
    makes the handler raise ValueError, and one that is an integer outside
    the signed 64-bit range makes it raise OverflowError; neither exception
    is caught, and in both cases tracker.db and what the connection sees stay
    as they were. *)
Theorem add_student_uncaught_errors (c : connection) (f : form) (name s : string) :
  form_first f "name" = Some name ->
  form_first f "roll_number" = Some s ->
  name <> ""%string -> s <> ""%string ->
  (py_int s = None ->
   add_student py_int f c
   = (Raise (ValueError "invalid literal for int() with base 10"), c)) /\
  (forall r,
     py_int s = Some r -> fits_int64 r = false ->
     fst (add_student py_int f c) = Raise OverflowError /\
     disk (snd (add_student py_int f c)) = disk c /\
     view (snd (add_student py_int f c)) = view c).
Proof.
  intros Hname Hroll Hn Hs.
  destruct name as [|a name]; [contradiction|].
  destruct s as [|b s]; [contradiction|].
  split.
  - intros Hint. unfold add_student, bind, form_get, int_. rewrite Hname, Hroll.
    cbv beta iota delta [ret truthy negb orb]. now rewrite Hint.
  - intros r Hint Hfit.
    rewrite (add_student_handler_run c f a b name s r Hname Hroll Hint).
    rewrite add_student_overflow by exact Hfit. cbn [fst snd].
    split; [reflexivity|]. split; [apply disk_begin | apply view_begin].
Qed.

(** X3: with both fields filled in and a roll number that fits and that no
    student has, the handler redirects to the index, the student is
    committed, and [get_student_by_roll] and [get_all_students] on the
    resulting connection return the submitted name. *)
Theorem add_student_handler_adds (c : connection) (f : form) (name s : string)
  (r : Z) :
  form_first f "name" = Some name ->
  form_first f "roll_number" = Some s ->
  name <> ""%string -> s <> ""%string ->
  py_int s = Some r ->
  fits_int64 r = true ->
  ~ In r (map fst (students (view c))) ->
  exists c',
    add_student py_int f c = (Ok (Redirect url_for_index), c') /\
    txn c' = None /\
    StudentTracker.get_student_by_roll r c' = (Ok (Some name), c') /\
    exists listed,
      StudentTracker.get_all_students c' = (Ok listed, c') /\
      In (r, name) listed /\
      forall row, In row (students (view c)) -> In row listed.
Proof.
  intros Hname Hroll Hn Hs Hint Hfit Hnew.
  destruct name as [|a name]; [contradiction|].
  destruct s as [|b s]; [contradiction|].
  rewrite (add_student_handler_run c f a b name s r Hname Hroll Hint).
  rewrite add_student_fresh by assumption.
  eexists. split; [reflexivity|]. split; [reflexivity|]. split.
  - apply (get_student_by_roll_found _ _ _ []); [exact Hfit|].
    unfold view. simpl. now apply select_after_insert.
  - eexists. split; [apply get_all_students_view|]. unfold view. simpl. split.
    + eapply Permutation_in; [apply Permutation_sym, rowid_insert_perm | now left].
    + intros row Hrow.
      eapply Permutation_in; [apply Permutation_sym, rowid_insert_perm | now right].
Qed.

End AddStudentHandler.

Lemma add_student_uncaught_errors_witness :
  add_student int_literal [("name", "Alice"); ("roll_number", "12a")]%string init_db
  = (Raise (ValueError "invalid literal for int() with base 10"), init_db) /\
  fst (add_student int_literal
         [("name", "Alice"); ("roll_number", "9223372036854775808")]%string init_db)
  = Raise OverflowError.
Proof.
  destruct (add_student_uncaught_errors int_literal init_db
              [("name", "Alice"); ("roll_number", "12a")]%string
              "Alice"%string "12a"%string)
    as [Hvalue _]; try reflexivity; try discriminate.
  destruct (add_student_uncaught_errors int_literal init_db
              [("name", "Alice"); ("roll_number", "9223372036854775808")]%string
              "Alice"%string "9223372036854775808"%string)
    as [_ Hover]; try reflexivity; try discriminate.
  split; [apply Hvalue; reflexivity|].
  apply (Hover (2 ^ 63)); reflexivity.
Defined.

Lemma add_student_handler_adds_witness :
  exists c',
    add_student int_literal [("name", "Alice"); ("roll_number", "1")]%string init_db
    = (Ok (Redirect url_for_index), c') /\
    StudentTracker.get_student_by_roll 1 c' = (Ok (Some "Alice"%string), c').
Proof.
  destruct (add_student_handler_adds int_literal init_db
              [("name", "Alice"); ("roll_number", "1")]%string
              "Alice"%string "1"%string 1)
    as [c' [Hrun [_ [Hget _]]]]; try reflexivity; try discriminate.
  - simpl. intros H. exact H.
  - exists c'. split; [exact Hrun | exact Hget].
Defined.

(** ** POST /add_grades *)

Lemma in_range_finite (x : pyfloat) :
  in_range x = true -> exists q, x = Fin q /\ (0 <= q)%Q /\ (q <= 100)%Q.
Proof.
  unfold in_range. destruct x as [q| | |]; simpl; try discriminate.
  intros H. apply andb_true_iff in H. destruct H as [H0 H100].
  exists q. split; [reflexivity|]. split; now apply Qle_bool_iff.
Qed.

Lemma in_range_accepted (r : Z) (x : pyfloat) :
  fits_int64 r = true -> in_range x = true -> grade_insert_error r x = None.
Proof.
  intros Hfit Hx. apply grade_insert_error_none; [exact Hfit|].
  intros ->. discriminate Hx.
Qed.

Section AddGradesHandler.

Variable py_int : string -> option Z.
Variable py_float : string -> option pyfloat.

(** When the loop of the handler ends without a rejection, it has appended
    the value of every submitted grade, in order, and each is in range. *)
Lemma parse_grades_values (grades_str : list string) :
  forall acc out,
    parse_grades py_float grades_str acc = inr out ->
    exists vals,
      out = acc ++ vals /\
      map py_float grades_str = map Some vals /\
      Forall (fun v => in_range v = true) vals.
Proof.
  induction grades_str as [|g rest IH]; intros acc out H; simpl in H.
  - injection H as <-. exists []. rewrite app_nil_r. repeat split. constructor.
  - destruct (py_float g) as [x|] eqn:Hg; [|discriminate].
    destruct (in_range x) eqn:Hx; simpl in H; [|discriminate].
    destruct (IH _ _ H) as [vals [Hout [Hmap Hall]]].
    exists (x :: vals). split; [now rewrite Hout, <- app_assoc|].
    split; [simpl; now rewrite Hg, Hmap | now constructor].
Qed.

Lemma parse_grades_accepts (grades_str : list string) (vals : list pyfloat) :
  map py_float grades_str = map Some vals ->
  Forall (fun v => in_range v = true) vals ->
  forall acc, parse_grades py_float grades_str acc = inr (acc ++ vals).
Proof.
  revert vals. induction grades_str as [|g rest IH]; intros [|v vals] Hmap Hall acc;
    simpl in Hmap; try discriminate.
  - simpl. now rewrite app_nil_r.
  - injection Hmap as Hg Hmap. inversion Hall as [|? ? Hv Hall']; subst.
    simpl. rewrite Hg, Hv. simpl. rewrite (IH vals Hmap Hall').
    now rewrite <- app_assoc.
Qed.

(** X4: when the roll number fits and no student has it, the handler answers
    404, whatever subjects and grades were submitted (valid or not), and the
    connection is left as it was. *)
Theorem add_grades_unknown_student (c : connection) (f : form) (s : string)
  (r : Z) :
  form_first f "roll_number" = Some s ->
  py_int s = Some r ->
  fits_int64 r = true ->
  ~ In r (map fst (students (view c))) ->
  add_grades py_int py_float f c = (Ok (Body "Student not found." 404), c).
Proof.
  intros Hs Hint Hfit Hnew.
  unfold add_grades, bind, form_get, int_. rewrite Hs.
  cbv beta iota delta [ret]. rewrite Hint. cbv beta iota.
  now rewrite get_student_by_roll_absent.
Qed.

(** X5: for an existing student, when every submitted grade parses to a
    value in range, the handler redirects to the index and commits one row
    per pair of the zip of the submitted subjects and grades, after the rows
    already there; the students are untouched, and [get_student_grades] then
    returns the earlier pairs of the student followed by the new ones. *)
Theorem add_grades_handler_stores (c : connection) (f : form) (s : string)
  (r : Z) (name : string) (vals : list pyfloat) :
  form_first f "roll_number" = Some s ->
  py_int s = Some r ->
  StudentTracker.get_student_by_roll r c = (Ok (Some name), c) ->
  map py_float (getlist f "grade") = map Some vals ->
  Forall (fun v => in_range v = true) vals ->
  exists c',
    add_grades py_int py_float f c = (Ok (Redirect url_for_index), c') /\
    txn c' = None /\
    students (disk c') = students (view c) /\
    grades (disk c')
    = grades (view c) ++ batch_rows r (combine (getlist f "subject") vals) /\
    StudentTracker.get_student_grades r c'
    = (Ok (student_grades (view c) r ++ combine (getlist f "subject") vals), c').
Proof.
  intros Hs Hint Hfound Hmap Hall.
  pose proof (get_student_by_roll_fits _ _ _ _ Hfound) as Hfit.
  rewrite (add_grades_run py_int py_float c f s r name Hs Hint Hfound).
  rewrite (parse_grades_accepts _ vals Hmap Hall []). cbn [app].
  assert (Hok : Forall (fun p : string * pyfloat => grade_insert_error r (snd p) = None)
                  (combine (getlist f "subject") vals)).
  { apply Forall_forall. intros [sub v] Hin. simpl.
    apply in_combine_r in Hin. rewrite Forall_forall in Hall.
    apply in_range_accepted; [exact Hfit | now apply Hall]. }
  destruct (add_grades_commit c r _ _ Hok) as [t [Hrun [Hst Hgr]]].
  rewrite Hrun. eexists. split; [reflexivity|].
  split; [reflexivity|]. split; [exact Hst|]. split; [exact Hgr|].
  unfold StudentTracker.get_student_grades, execute_select, sql_select_grades,
    bind_int, student_grades.
  rewrite Hfit. unfold view at 1. cbn [txn disk]. rewrite Hgr.
  rewrite filter_app, map_app. do 3 f_equal.
  unfold batch_rows. generalize (combine (getlist f "subject") vals).
  intros l. induction l as [|[sub v] l IH]; [reflexivity|].
  simpl. rewrite Z.eqb_refl. simpl. now rewrite IH.
Qed.

(** X6: whatever the request and the store, the answer of the handler, when
    it gives one, is the redirect, the 404 of an unknown student, or a 400:
    the 500 branch is never taken, because a roll number that was found fits
    and a validated grade is never refused by the store. *)
Theorem add_grades_handler_answers (c : connection) (f : form) (resp : response) :
  fst (add_grades py_int py_float f c) = Ok resp ->
  resp = Redirect url_for_index \/
  resp = Body "Student not found." 404 \/
  resp = Body "Grades must be between 0 and 100." 400 \/
  resp = Body "Grades must be numeric." 400.
Proof.
  unfold add_grades, bind at 1, form_get.
  destruct (form_first f "roll_number") as [s|]; [|discriminate].
  cbv beta iota delta [ret]. unfold bind at 1, int_.
  destruct (py_int s) as [r|]; [|discriminate].
  cbv beta iota delta [ret]. unfold bind at 1.
  destruct (StudentTracker.get_student_by_roll r c) as [[found | e] c1] eqn:Hfound;
    [|discriminate].
  pose proof (get_student_by_roll_fits _ _ _ _ Hfound) as Hfit.
  destruct found as [name|]; [|intros H; injection H as <-; auto].
  destruct (parse_grades py_float (getlist f "grade") []) as [rej | out] eqn:Hparse.
  - intros H. injection H as <-.
    clear -Hparse. revert Hparse. generalize (@nil pyfloat).
    induction (getlist f "grade") as [|g rest IH]; intros acc H; simpl in H;
      [discriminate|].
    destruct (py_float g) as [x|]; [|injection H as <-; auto].
    destruct (in_range x); simpl in H; [eauto | injection H as <-; auto].
  - destruct (parse_grades_values _ _ _ Hparse) as [vals [-> [_ Hall]]].
    cbn [app].
    assert (Hok : Forall (fun p : string * pyfloat =>
                            grade_insert_error r (snd p) = None)
                    (combine (getlist f "subject") vals)).
    { apply Forall_forall. intros [sub v] Hin. simpl.
      apply in_combine_r in Hin. rewrite Forall_forall in Hall.
      apply in_range_accepted; [exact Hfit | now apply Hall]. }
    destruct (add_grades_commit c1 r _ _ Hok) as [t [Hrun _]].
    unfold bind. rewrite Hrun. cbv beta iota delta [ret].
    intros H. injection H as <-. auto.
Qed.

End AddGradesHandler.

Lemma add_grades_unknown_student_witness :
  add_grades int_literal float_literal
    [("roll_number", "99"); ("subject", "Math"); ("grade", "150")]%string
    (add_students [("Alice"%string, 1)] init_db)
  = (Ok (Body "Student not found." 404), add_students [("Alice"%string, 1)] init_db).
Proof.
  apply (add_grades_unknown_student int_literal float_literal _ _ "99"%string 99).
  - reflexivity.
  - reflexivity.
  - reflexivity.
  - simpl. intros [H | H]; [discriminate H | exact H].
Defined.

Lemma add_grades_handler_stores_witness :
  exists c',
    add_grades int_literal float_literal
      [("roll_number", "1"); ("subject", "Math"); ("grade", "90");
       ("subject", "Science"); ("grade", "80")]%string
      (add_students [("Alice"%string, 1)] init_db)
    = (Ok (Redirect url_for_index), c') /\
    StudentTracker.get_student_grades 1 c'
    = (Ok [("Math"%string, Fin 90); ("Science"%string, Fin 80)], c').
Proof.
  destruct (add_grades_handler_stores int_literal float_literal
              (add_students [("Alice"%string, 1)] init_db)
              [("roll_number", "1"); ("subject", "Math"); ("grade", "90");
               ("subject", "Science"); ("grade", "80")]%string
              "1"%string 1 "Alice"%string [Fin 90; Fin 80])
    as [c' [Hrun [_ [_ [_ Hget]]]]]; try reflexivity.
  - repeat constructor.
  - exists c'. split; [exact Hrun | exact Hget].
Defined.

Lemma add_grades_handler_answers_witness :
  Body "Grades must be numeric." 400 = Redirect url_for_index \/
  Body "Grades must be numeric." 400 = Body "Student not found." 404 \/
  Body "Grades must be numeric." 400 = Body "Grades must be between 0 and 100." 400 \/
  Body "Grades must be numeric." 400 = Body "Grades must be numeric." 400.
Proof.
  apply (add_grades_handler_answers int_literal float_literal
           (add_students [("Alice"%string, 1)] init_db)
           [("roll_number", "1"); ("subject", "Math"); ("grade", "ninety")]%string).
  reflexivity.
Defined.

(** ** What a call changes *)

Lemma add_student_effect (c : connection) (name : string) (r : Z) :
  (view (snd (StudentTracker.add_student name r c)) = view c /\
   disk (snd (StudentTracker.add_student name r c)) = disk c) \/
  (fits_int64 r = true /\
   ~ In r (map fst (students (view c))) /\
   snd (StudentTracker.add_student name r c)
   = {| disk := {| students := rowid_insert (r, name) (students (view c));
                   grades := grades (view c) |};
        txn := None |}).
Proof.
  destruct (fits_int64 r) eqn:Hfit.
  - destruct (has_rowid r (students (view c))) eqn:Hin.
    + left. rewrite add_student_duplicate; [|exact Hfit|now apply has_rowid_In].
      simpl. split; [apply view_begin | apply disk_begin].
    + assert (Hnew : ~ In r (map fst (students (view c))))
        by (intros H; apply has_rowid_In in H; congruence).
      right. rewrite add_student_fresh by assumption. auto.
  - left. rewrite add_student_overflow by exact Hfit.
    simpl. split; [apply view_begin | apply disk_begin].
Qed.










(** ** The invariant of a store filled through the handlers *)

Lemma get_student_by_roll_state (c : connection) (r : Z) :
  snd (StudentTracker.get_student_by_roll r c) = c.
Proof.
  unfold StudentTracker.get_student_by_roll, bind, execute_select, ret.
  destruct (sql_select_name r (view c)) as [rows|]; [|reflexivity].
  destruct (fetchone rows); reflexivity.
Qed.

Lemma get_student_by_roll_In (c c' : connection) (r : Z) (name : string) :
  StudentTracker.get_student_by_roll r c = (Ok (Some name), c') ->
  c' = c /\ In (r, name) (students (view c)).
Proof.
  unfold StudentTracker.get_student_by_roll, bind, execute_select, sql_select_name,
    bind_int.
  destruct (fits_int64 r); [|discriminate]. cbv beta iota.
  destruct (filter (fun row : student_row => fst row =? r) (students (view c)))
    as [|[k n] l] eqn:E; simpl; [discriminate|].
  intros H. injection H as <- <-. split; [reflexivity|].
  assert (Hin : In (k, n) (filter (fun row : student_row => fst row =? r)
                             (students (view c)))) by (rewrite E; now left).
  apply filter_In in Hin. destruct Hin as [Hin Hk]. simpl in Hk.
  apply Z.eqb_eq in Hk. now subst k.
Qed.

Lemma batch_rows_Forall (P : grade_row -> Prop) (r : Z)
  (subjects : list string) (vals : list pyfloat) :
  (forall s v, In v vals -> P (r, s, v)) ->
  Forall P (batch_rows r (combine subjects vals)).
Proof.
  intros H. unfold batch_rows. apply Forall_map, Forall_forall.
  intros [s v] Hin. simpl. apply H. eapply in_combine_r. exact Hin.
Qed.

Lemma handler_ok_insert_student (t : tables) (name : string) (r : Z) :
  handler_ok t ->
  fits_int64 r = true ->
  ~ In r (map fst (students t)) ->
  handler_ok {| students := rowid_insert (r, name) (students t); grades := grades t |}.
Proof.
  intros [Hstore [Href Hrange]] Hfit Hnew. split; [|split].
  - now apply store_ok_insert_student.
  - intros k s g Hrow. simpl in *.
    eapply Permutation_in.
    + apply Permutation_map, Permutation_sym, rowid_insert_perm.
    + simpl. right. exact (Href k s g Hrow).
  - exact Hrange.
Qed.

Lemma handler_ok_add_rows (t t' : tables) (r : Z) (name : string)
  (subjects : list string) (vals : list pyfloat) :
  handler_ok t ->
  fits_int64 r = true ->
  In (r, name) (students t) ->
  Forall (fun v => in_range v = true) vals ->
  students t' = students t ->
  grades t' = grades t ++ batch_rows r (combine subjects vals) ->
  handler_ok t'.
Proof.
  intros [[Hfits Hsorted Hacc] [Href Hrange]] Hfit Hstudent Hvals Hst Hgr.
  rewrite Forall_forall in Hvals.
  split; [|split].
  - constructor; rewrite ?Hst; try assumption.
    rewrite Hgr. apply Forall_app. split; [exact Hacc|].
    apply batch_rows_Forall. intros s v Hv. simpl.
    apply in_range_accepted; [exact Hfit | now apply Hvals].
  - intros k s g Hrow. rewrite Hst. rewrite Hgr in Hrow.
    apply in_app_or in Hrow. destruct Hrow as [Hold | Hnew].
    + exact (Href k s g Hold).
    + unfold batch_rows in Hnew. apply in_map_iff in Hnew.
      destruct Hnew as [p [Heq _]]. injection Heq as <- _ _.
      apply in_map_iff. exists (r, name). split; [reflexivity | exact Hstudent].
  - unfold grades_in_range. rewrite Hgr. apply Forall_app. split; [exact Hrange|].
    apply batch_rows_Forall. intros s v Hv. simpl. now apply Hvals.
Qed.

Section HandlerInvariant.

Variable py_int : string -> option Z.
Variable py_float : string -> option pyfloat.

Lemma add_student_handler_state (c : connection) (f : form) :
  snd (add_student py_int f c) = c \/
  exists name r,
    snd (add_student py_int f c) = snd (StudentTracker.add_student name r c).
Proof.
  unfold add_student, bind, form_get, int_, ret, raise.
  destruct (form_first f "name") as [name|]; [|now left].
  destruct (form_first f "roll_number") as [s|]; [|now left].
  destruct (negb (truthy name) || negb (truthy s)); [now left|].
  destruct (py_int s) as [r|]; [|now left].
  right. exists name, r.
  destruct (StudentTracker.add_student name r c) as [[[[|] msg] | e] c'];
    reflexivity.
Qed.

Lemma add_grades_handler_state (c : connection) (f : form) :
  snd (add_grades py_int py_float f c) = c \/
  exists r name vals t,
    fits_int64 r = true /\
    In (r, name) (students (view c)) /\
    Forall (fun v => in_range v = true) vals /\
    snd (add_grades py_int py_float f c) = {| disk := t; txn := None |} /\
    students t = students (view c) /\
    grades t = grades (view c) ++ batch_rows r (combine (getlist f "subject") vals).
Proof.
  unfold add_grades, bind, form_get, int_, ret, raise.
  destruct (form_first f "roll_number") as [s|]; [|now left].
  destruct (py_int s) as [r|]; [|now left].
  destruct (StudentTracker.get_student_by_roll r c) as [[found | e] c1] eqn:Hfound.
  - destruct found as [name|].
    + pose proof (get_student_by_roll_fits _ _ _ _ Hfound) as Hfit.
      destruct (get_student_by_roll_In _ _ _ _ Hfound) as [-> Hin].
      destruct (parse_grades py_float (getlist f "grade") []) as [rej | out] eqn:Hparse;
        [now left|].
      destruct (parse_grades_values py_float _ _ _ Hparse) as [vals [-> [_ Hall]]].
      cbn [app]. right.
      assert (Hok : Forall (fun p : string * pyfloat =>
                              grade_insert_error r (snd p) = None)
                      (combine (getlist f "subject") vals)).
      { apply Forall_forall. intros [sub v] Hv. simpl.
        apply in_combine_r in Hv. rewrite Forall_forall in Hall.
        apply in_range_accepted; [exact Hfit | now apply Hall]. }
      destruct (add_grades_commit c r _ _ Hok) as [t [Hrun [Hst Hgr]]].
      exists r, name, vals, t. rewrite Hrun. cbn [snd]. auto 10.
    + left. pose proof (get_student_by_roll_state c r) as Hsame.
      rewrite Hfound in Hsame. simpl in Hsame. now subst c1.
  - left. pose proof (get_student_by_roll_state c r) as Hsame.
    rewrite Hfound in Hsame. simpl in Hsame. now subst c1.
Qed.

(** X9: on a connection with nothing pending whose store satisfies the
    handlers' invariant (rowid order and 64-bit keys, every grade row owned
    by a student, every grade within [0, 100]), any request to POST
    /add_student and any request to POST /add_grades, whatever its fields and
    whatever its outcome, leaves a connection with nothing pending whose
    store satisfies the invariant again. *)
Theorem handlers_keep_invariant (c : connection) (f : form) :
  handler_ok (view c) ->
  view c = disk c ->
  (handler_ok (view (snd (add_student py_int f c))) /\
   view (snd (add_student py_int f c)) = disk (snd (add_student py_int f c))) /\
  (handler_ok (view (snd (add_grades py_int py_float f c))) /\
   view (snd (add_grades py_int py_float f c))
   = disk (snd (add_grades py_int py_float f c))).
Proof.
  intros Hok Hsync. split.
  - destruct (add_student_handler_state c f) as [-> | [name [r ->]]]; [now split|].
    destruct (add_student_effect c name r) as [[Hview Hdisk] | [Hfit [Hnew ->]]].
    + rewrite Hview, Hdisk. now split.
    + unfold view. cbn [txn disk]. split; [|reflexivity].
      now apply handler_ok_insert_student.
  - destruct (add_grades_handler_state c f)
      as [-> | [r [name [vals [t [Hfit [Hin [Hall [-> [Hst Hgr]]]]]]]]]]; [now split|].
    unfold view at 1 2. cbn [txn disk]. split; [|reflexivity].
    eapply handler_ok_add_rows; eassumption.
Qed.

End HandlerInvariant.

Lemma handler_ok_init : handler_ok (view init_db).
Proof.
  split; [apply store_ok_init|]. split.
  - intros r s g H. destruct H.
  - constructor.
Qed.

Lemma handlers_keep_invariant_witness :
  handler_ok
    (view (snd (add_grades int_literal float_literal
                  [("roll_number", "1"); ("subject", "Math"); ("grade", "90")]%string
                  (snd (add_student int_literal
                          [("name", "Alice"); ("roll_number", "1")]%string init_db))))).
Proof.
  destruct (handlers_keep_invariant int_literal float_literal init_db
              [("name", "Alice"); ("roll_number", "1")]%string
              handler_ok_init eq_refl) as [[Hok Hsync] _].
  destruct (handlers_keep_invariant int_literal float_literal _
              [("roll_number", "1"); ("subject", "Math"); ("grade", "90")]%string
              Hok Hsync) as [_ [Hok' _]].
  exact Hok'.
Defined.

(** ** Subjects *)

Lemma existsb_eqb_In (x : string) (seen : list string) :
  existsb (String.eqb x) seen = true <-> In x seen.
Proof.
  rewrite existsb_exists. split.
  - intros [y [Hin Heq]]. apply String.eqb_eq in Heq. now subst.
  - intros Hin. exists x. split; [exact Hin | apply String.eqb_refl].
Qed.

Lemma distinct_In (l : list string) :
  forall seen x, In x (distinct l seen) <-> In x l /\ ~ In x seen.
Proof.
  induction l as [|y l IH]; intros seen x; simpl.
  - tauto.
  - destruct (existsb (String.eqb y) seen) eqn:E.
    + apply existsb_eqb_In in E. rewrite IH. split.
      * intros [Hin Hseen]. tauto.
      * intros [[-> | Hin] Hseen]; [contradiction | tauto].
    + assert (Hy : ~ In y seen).
      { intros H. apply existsb_eqb_In in H. congruence. }
      simpl. rewrite IH. simpl. split.
      * intros [-> | [Hin Hseen]]; [tauto|]. tauto.
      * intros [[-> | Hin] Hseen]; [now left|].
        destruct (string_dec y x) as [-> | Hne]; [now left|]. right. tauto.
Qed.

Lemma distinct_NoDup (l : list string) : forall seen, NoDup (distinct l seen).
Proof.
  induction l as [|y l IH]; intros seen; simpl.
  - constructor.
  - destruct (existsb (String.eqb y) seen); [apply IH|].
    constructor; [|apply IH].
    rewrite distinct_In. simpl. tauto.
Qed.

(** X10: [get_subjects] returns each subject that has at least one grade row
    exactly once, and nothing else; the store is left as it was. *)
Theorem get_subjects_distinct (c : connection) :
  exists subjects,
    StudentTracker.get_subjects c = (Ok subjects, c) /\
    NoDup subjects /\
    forall s, In s subjects <-> exists r g, In (r, s, g) (grades (view c)).
Proof.
  exists (distinct (map (fun row : grade_row => snd (fst row)) (grades (view c))) []).
  split; [|split].
  - unfold StudentTracker.get_subjects, bind, execute_select, sql_select_subjects, ret.
    now rewrite map_id.
  - apply distinct_NoDup.
  - intros s. rewrite distinct_In, in_map_iff. split.
    + intros [[[[r s'] g] [Heq Hin]] _]. simpl in Heq. subst s'. eauto.
    + intros [r [g Hin]]. split; [|intros H; exact H].
      exists (r, s, g). split; [reflexivity | exact Hin].
Qed.

(** ** Averages of validated grades *)

Lemma in_range_values (vals : list pyfloat) :
  Forall (fun v => in_range v = true) vals ->
  exists qs, vals = map Fin qs.
Proof.
  induction 1 as [|v vals Hv _ [qs ->]].
  - now exists [].
  - destruct (in_range_finite v Hv) as [q [-> _]]. now exists (q :: qs).
Qed.

Lemma sql_avg_in_range (where_ : grade_row -> bool) (rows : list grade_row) :
  Forall (fun row : grade_row => in_range (snd row) = true) rows ->
  (sql_avg where_ rows = None <-> filter where_ rows = []).
Proof.
  intros Hall. rewrite sql_avg_select.
  assert (Hsel : Forall (fun v => in_range v = true) (map snd (filter where_ rows))).
  { apply Forall_map, Forall_forall. intros row Hin.
    apply filter_In in Hin. rewrite Forall_forall in Hall. now apply Hall. }
  destruct (in_range_values _ Hsel) as [qs Hvals]. split.
  - intros Hnone. rewrite Hvals in Hnone.
    destruct qs as [|q qs].
    + simpl in Hvals. now apply map_eq_nil in Hvals.
    + destruct (float_mean_finite (q :: qs)) as [v Hv]; [discriminate|]. congruence.
  - intros ->. reflexivity.
Qed.

(** X11: in a store whose grades all lie within [0, 100], as the handler
    leaves them, the average of a student (for a roll number that fits) and
    the average of a subject are absent exactly when there is no grade row
    for them: a student or a subject with grades always gets a number. *)
Theorem averages_absent_iff_no_rows (c : connection) :
  grades_in_range (view c) ->
  (forall r,
     fits_int64 r = true ->
     exists avg,
       StudentTracker.calculate_average r c = (Ok avg, c) /\
       (avg = None <-> student_grades (view c) r = [])) /\
  (forall s,
     exists avg,
       StudentTracker.get_class_average s c = (Ok avg, c) /\
       (avg = None <-> subject_grades (view c) s = [])).
Proof.
  intros Hrange. split.
  - intros r Hfit.
    pose proof (sql_avg_in_range (fun row : grade_row => fst (fst row) =? r)
                  (grades (view c)) Hrange) as Hnone.
    eexists. split.
    + unfold StudentTracker.calculate_average, execute_select, sql_avg_by_roll,
        bind_int. rewrite Hfit. reflexivity.
    + rewrite Hnone. unfold student_grades. split.
      * intros ->. reflexivity.
      * apply map_eq_nil.
  - intros s.
    pose proof (sql_avg_in_range (fun row : grade_row => String.eqb (snd (fst row)) s)
                  (grades (view c)) Hrange) as Hnone.
    eexists. split.
    + reflexivity.
    + rewrite Hnone. unfold subject_grades. split.
      * intros ->. reflexivity.
      * apply map_eq_nil.
Qed.

Lemma averages_absent_iff_no_rows_witness :
  exists avg,
    StudentTracker.calculate_average 1
      (snd (StudentTracker.add_grades 1 ["Math"; "Art"]%string [Fin 90; Fin 75] init_db))
    = (Ok avg,
       snd (StudentTracker.add_grades 1 ["Math"; "Art"]%string [Fin 90; Fin 75] init_db)) /\
    avg <> None.
Proof.
  destruct (averages_absent_iff_no_rows
              (snd (StudentTracker.add_grades 1 ["Math"; "Art"]%string
                      [Fin 90; Fin 75] init_db))) as [Hstudent _].
  - repeat constructor.
  - destruct (Hstudent 1 eq_refl) as [avg [Hrun Hnone]].
    exists avg. split; [exact Hrun|].
    intros H. apply Hnone in H. discriminate H.
Defined.

(** X12: for a roll number that fits, [calculate_average] returns what AVG
    computes from all the grades of the student, over all subjects, in row
    order: their sum over their number, each operation rounded to binary64.
    It is their arithmetic mean whenever every partial sum and the quotient
    are held by binary64, so that nothing is rounded. *)
Theorem calculate_average_float_mean (c : connection) (r : Z) :
  fits_int64 r = true ->
  StudentTracker.calculate_average r c
  = (Ok (float_mean (map snd (student_grades (view c) r))), c) /\
  (forall qs : list Q,
     qs <> [] ->
     map snd (student_grades (view c) r) = map Fin qs ->
     sums_exact 0 qs ->
     binary64 (arithmetic_mean qs) ->
     exists m,
       StudentTracker.calculate_average r c = (Ok (Some (Fin m)), c) /\
       (m == arithmetic_mean qs)%Q).
Proof.
  intros Hfit.
  assert (Hrun : StudentTracker.calculate_average r c
                 = (Ok (float_mean (map snd (student_grades (view c) r))), c)).
  { unfold StudentTracker.calculate_average, execute_select, sql_avg_by_roll,
      bind_int, student_grades.
    rewrite Hfit, sql_avg_select, map_map. reflexivity. }
  rewrite Hrun. split; [reflexivity|].
  intros qs Hne -> Hsums Hmean.
  destruct (float_mean_exact qs Hne Hsums Hmean) as [m [-> Hm]]. now exists m.
Qed.

Lemma calculate_average_float_mean_witness :
  exists m,
    StudentTracker.calculate_average 1
      (snd (StudentTracker.add_grades 1 ["Math"; "Science"]%string [Fin 90; Fin 80]
              init_db))
    = (Ok (Some (Fin m)),
       snd (StudentTracker.add_grades 1 ["Math"; "Science"]%string [Fin 90; Fin 80]
              init_db)) /\
    (m == 85)%Q.
Proof.
  destruct (calculate_average_float_mean
              (snd (StudentTracker.add_grades 1 ["Math"; "Science"]%string
                      [Fin 90; Fin 80] init_db)) 1 eq_refl)
    as [_ H].
  destruct (H [90; 80]%Q) as [m [Hm Hmean]].
  - discriminate.
  - reflexivity.
  - split; [exists 90%Q | split; [exists 170%Q | exact I]];
      (split; [vm_compute; reflexivity | reflexivity]).
  - exists 85%Q. split; [vm_compute; reflexivity | reflexivity].
  - exists m. split; [exact Hm|]. rewrite Hmean. reflexivity.
Defined.

(** ** The pages *)

Lemma get_student_grades_run (c : connection) (r : Z) :
  fits_int64 r = true ->
  StudentTracker.get_student_grades r c = (Ok (student_grades (view c) r), c).
Proof.
  intros Hfit.
  unfold StudentTracker.get_student_grades, execute_select, sql_select_grades,
    bind_int.
  now rewrite Hfit.
Qed.

Lemma calculate_average_run (c : connection) (r : Z) :
  fits_int64 r = true ->
  StudentTracker.calculate_average r c
  = (Ok (sql_avg (fun row : grade_row => fst (fst row) =? r) (grades (view c))), c).
Proof.
  intros Hfit.
  unfold StudentTracker.calculate_average, execute_select, sql_avg_by_roll, bind_int.
  now rewrite Hfit.
Qed.

Lemma get_subjects_run (c : connection) :
  StudentTracker.get_subjects c
  = (Ok (distinct (map (fun row : grade_row => snd (fst row)) (grades (view c))) []), c).
Proof.
  unfold StudentTracker.get_subjects, bind, execute_select, sql_select_subjects, ret.
  now rewrite map_id.
Qed.

Lemma dict_set_fresh (k : Z) (v : cell) (d : list (Z * cell)) :
  ~ In k (map fst d) -> dict_set k v d = d ++ [(k, v)].
Proof.
  induction d as [|[k' v'] d IH]; simpl; intros Hnew; [reflexivity|].
  destruct (k' =? k) eqn:E.
  - apply Z.eqb_eq in E. tauto.
  - rewrite IH by tauto. reflexivity.
Qed.

Lemma dict_get_map (g : Z -> cell) (l : list student_row) (k : Z) :
  In k (map fst l) ->
  dict_get k (map (fun st : student_row => (fst st, g (fst st))) l) = Some (g k).
Proof.
  induction l as [|x l IH]; simpl; [tauto|].
  intros Hin. destruct (fst x =? k) eqn:E.
  - apply Z.eqb_eq in E. now rewrite E.
  - apply IH. destruct Hin as [H | H]; [|exact H].
    apply Z.eqb_neq in E. contradiction.
Qed.

Lemma sorted_rowids_NoDup (l : list student_row) :
  StronglySorted rowid_lt l -> NoDup (map fst l).
Proof.
  induction 1 as [|x l _ IH Hx]; simpl; constructor; [|exact IH].
  intros Hin. apply in_map_iff in Hin. destruct Hin as [y [Heq Hy]].
  rewrite Forall_forall in Hx. specialize (Hx y Hy). unfold rowid_lt in Hx. lia.
Qed.

Section Pages.

Variable py_int : string -> option Z.
Variable py_round2 : pyfloat -> pyfloat.
Variable str_float : pyfloat -> string.

Lemma index_averages_run (c : connection) (students_ : list student_row) :
  forall d,
    (forall st, In st students_ -> fits_int64 (fst st) = true) ->
    NoDup (map fst students_) ->
    (forall k, In k (map fst students_) -> ~ In k (map fst d)) ->
    index_averages py_round2 students_ d c
    = (Ok (d ++ map (fun st : student_row =>
                       (fst st,
                        average_cell py_round2
                          (sql_avg (fun row : grade_row => fst (fst row) =? fst st)
                             (grades (view c)))))
                  students_), c).
Proof.
  induction students_ as [|st rest IH]; intros d Hfit Hnd Hnew; simpl.
  - unfold ret. now rewrite app_nil_r.
  - unfold bind. rewrite calculate_average_run by (apply Hfit; now left).
    simpl in Hnd. inversion Hnd as [|? ? Hst Hnd']; subst.
    rewrite dict_set_fresh by (apply Hnew; now left).
    rewrite IH.
    + now rewrite <- app_assoc.
    + intros st' Hin. apply Hfit. now right.
    + exact Hnd'.
    + intros k Hk Hin. rewrite map_app in Hin. apply in_app_or in Hin.
      destruct Hin as [Hin | [<- | []]].
      * apply (Hnew k); [now right | exact Hin].
      * contradiction.
Qed.

(** X13: on a store that satisfies the invariant, the index page never
    fails: it is rendered with all the students in ascending roll number,
    the distinct subjects, and a dict with exactly one entry per student, in
    the same order, holding the rounded average of that student, or N/A when
    [calculate_average] returns nothing for them. *)
Theorem index_page (c : connection) :
  store_ok (view c) ->
  exists subjects averages,
    index py_round2 c
    = (Ok (Template (index_html (students (view c)) subjects averages)), c) /\
    StudentTracker.get_subjects c = (Ok subjects, c) /\
    map fst averages = map fst (students (view c)) /\
    forall r,
      In r (map fst (students (view c))) ->
      exists avg,
        StudentTracker.calculate_average r c = (Ok avg, c) /\
        dict_get r averages = Some (average_cell py_round2 avg).
Proof.
  intros [Hfits Hsorted _].
  rewrite Forall_forall in Hfits.
  eexists. eexists. split; [|split; [|split]].
  - unfold index, bind at 1. rewrite get_all_students_view.
    unfold bind at 1. rewrite get_subjects_run.
    unfold bind. rewrite (index_averages_run c (students (view c)) []).
    + reflexivity.
    + exact Hfits.
    + now apply sorted_rowids_NoDup.
    + intros k _ H. exact H.
  - apply get_subjects_run.
  - cbn [app]. rewrite map_map. reflexivity.
  - intros r Hin. eexists. split.
    + apply calculate_average_run.
      apply in_map_iff in Hin. destruct Hin as [st [<- Hst]]. now apply Hfits.
    + cbn [app].
      apply (dict_get_map
               (fun k => average_cell py_round2
                           (sql_avg (fun row : grade_row => fst (fst row) =? k)
                              (grades (view c))))).
      exact Hin.
Qed.

(** X14: for an existing student with a non-empty name, POST /view_details
    renders the details page with that name, the roll number, all the
    (subject, grade) pairs stored for the student in the order they were
    inserted, and the rounded average, or N/A when there is none; the store
    is left as it was. *)
Theorem view_details_known (c : connection) (f : form) (s : string) (r : Z)
  (name : string) :
  form_first f "roll_number" = Some s ->
  py_int s = Some r ->
  StudentTracker.get_student_by_roll r c = (Ok (Some name), c) ->
  name <> ""%string ->
  exists avg,
    StudentTracker.calculate_average r c = (Ok avg, c) /\
    view_details py_int py_round2 POST f c
    = (Ok (Template (student_details_html name r (student_grades (view c) r)
                       (average_cell py_round2 avg))), c).
Proof.
  intros Hs Hint Hfound Hname.
  pose proof (get_student_by_roll_fits _ _ _ _ Hfound) as Hfit.
  eexists. split; [now apply calculate_average_run|].
  unfold view_details, bind, form_get, int_. rewrite Hs.
  cbv beta iota delta [ret]. rewrite Hint. cbv beta iota. rewrite Hfound.
  destruct name as [|a rest]; [contradiction|]. cbv beta iota.
  rewrite get_student_grades_run by exact Hfit.
  now rewrite calculate_average_run by exact Hfit.
Qed.

(** X15: GET /view_details redirects to the index whatever the request
    holds; POST answers 404 when the roll number fits and no student has it,
    and also when the student found has the empty string as name (which
    [StudentTracker.add_student] accepts and the test [if name] takes for
    absent).  The store is left as it was in all three cases. *)
Theorem view_details_redirect_or_not_found (c : connection) (f : form) :
  view_details py_int py_round2 GET f c = (Ok (Response (Redirect url_for_index)), c) /\
  (forall s r,
     form_first f "roll_number" = Some s ->
     py_int s = Some r ->
     fits_int64 r = true ->
     ~ In r (map fst (students (view c))) ->
     view_details py_int py_round2 POST f c
     = (Ok (Response (Body "Student not found." 404)), c)) /\
  (forall s r,
     form_first f "roll_number" = Some s ->
     py_int s = Some r ->
     StudentTracker.get_student_by_roll r c = (Ok (Some ""%string), c) ->
     view_details py_int py_round2 POST f c
     = (Ok (Response (Body "Student not found." 404)), c)).
Proof.
  split; [reflexivity|]. split.
  - intros s r Hs Hint Hfit Hnew.
    unfold view_details, bind, form_get, int_. rewrite Hs.
    cbv beta iota delta [ret]. rewrite Hint. cbv beta iota.
    now rewrite get_student_by_roll_absent.
  - intros s r Hs Hint Hfound.
    unfold view_details, bind, form_get, int_. rewrite Hs.
    cbv beta iota delta [ret]. rewrite Hint. cbv beta iota.
    now rewrite Hfound.
Qed.

End Pages.

Lemma index_page_witness :
  exists subjects averages,
    index (fun x => x)
      (snd (StudentTracker.add_grades 1 ["Math"%string] [Fin 90]
              (add_students [("Bob"%string, 2); ("Alice"%string, 1)] init_db)))
    = (Ok (Template (index_html [(1, "Alice"%string); (2, "Bob"%string)]
                       subjects averages)),
       snd (StudentTracker.add_grades 1 ["Math"%string] [Fin 90]
              (add_students [("Bob"%string, 2); ("Alice"%string, 1)] init_db))) /\
    map fst averages = [1; 2].
Proof.
  destruct (index_page (fun x => x)
              (snd (StudentTracker.add_grades 1 ["Math"%string] [Fin 90]
                      (add_students [("Bob"%string, 2); ("Alice"%string, 1)] init_db))))
    as [subjects [averages [Hrun [_ [Hkeys _]]]]].
  - constructor; simpl; repeat constructor.
  - exists subjects, averages. split; [exact Hrun | exact Hkeys].
Defined.

Lemma view_details_known_witness :
  exists avg,
    StudentTracker.calculate_average 1
      (snd (StudentTracker.add_grades 1 ["Math"%string] [Fin 90]
              (add_students [("Alice"%string, 1)] init_db)))
    = (Ok avg,
       snd (StudentTracker.add_grades 1 ["Math"%string] [Fin 90]
              (add_students [("Alice"%string, 1)] init_db))) /\
    view_details int_literal (fun x => x) POST [("roll_number", "1")]%string
      (snd (StudentTracker.add_grades 1 ["Math"%string] [Fin 90]
              (add_students [("Alice"%string, 1)] init_db)))
    = (Ok (Template (student_details_html "Alice" 1 [("Math"%string, Fin 90)]
                       (average_cell (fun x => x) avg))),
       snd (StudentTracker.add_grades 1 ["Math"%string] [Fin 90]
              (add_students [("Alice"%string, 1)] init_db))).
Proof.
  apply (view_details_known int_literal (fun x => x)
           (snd (StudentTracker.add_grades 1 ["Math"%string] [Fin 90]
                   (add_students [("Alice"%string, 1)] init_db)))
           [("roll_number", "1")]%string "1"%string 1 "Alice"%string);
    try reflexivity.
  discriminate.
Defined.

(** ** POST /subject_topper and POST /class_average *)

Lemma filter_subject_nil (t : tables) (s : string) :
  filter (fun row : grade_row => String.eqb (snd (fst row)) s) (grades t) = [] <->
  forall r g, ~ In (r, s, g) (grades t).
Proof.
  split.
  - intros Hnil r g Hin.
    assert (H : In (r, s, g)
                  (filter (fun row : grade_row => String.eqb (snd (fst row)) s)
                     (grades t))).
    { apply filter_In. split; [exact Hin|]. simpl. apply String.eqb_refl. }
    rewrite Hnil in H. exact H.
  - intros Hno.
    destruct (filter (fun row : grade_row => String.eqb (snd (fst row)) s) (grades t))
      as [|[[r s'] g] l] eqn:E; [reflexivity|].
    assert (H : In (r, s', g)
                  (filter (fun row : grade_row => String.eqb (snd (fst row)) s)
                     (grades t))) by (rewrite E; now left).
    apply filter_In in H. destruct H as [Hin Hs]. simpl in Hs.
    apply String.eqb_eq in Hs. subst s'. exfalso. exact (Hno r g Hin).
Qed.

Lemma topper_in_referential (t : tables) (s : string) :
  referential t ->
  (hd_error (order_by_grade_desc (sql_join_subject s t)) = None <->
   forall r g, ~ In (r, s, g) (grades t)) /\
  (forall name g,
     hd_error (order_by_grade_desc (sql_join_subject s t)) = Some (name, g) ->
     (exists r, In (r, name) (students t) /\ In (r, s, g) (grades t)) /\
     (forall r' g', In (r', s, g') (grades t) -> sql_le g' g = true)).
Proof.
  intros Href.
  assert (Hjoin : forall r g, In (r, s, g) (grades t) ->
                              exists n, In (n, g) (sql_join_subject s t)).
  { intros r g Hrow. pose proof (Href r s g Hrow) as Hin.
    apply in_map_iff in Hin. destruct Hin as [[r' n] [Heq Hst]].
    simpl in Heq. subst r'. exists n. apply sql_join_subject_In. eauto. }
  split.
  - rewrite order_by_grade_desc_nil. split.
    + intros Hnil r g Hrow. destruct (Hjoin r g Hrow) as [n Hin].
      rewrite Hnil in Hin. exact Hin.
    + intros Hno. destruct (sql_join_subject s t) as [|[n g] l] eqn:E; [reflexivity|].
      assert (Hin : In (n, g) (sql_join_subject s t)) by (rewrite E; now left).
      apply sql_join_subject_In in Hin. destruct Hin as [r [_ Hrow]].
      exfalso. exact (Hno r g Hrow).
  - intros name g Hhd. apply order_by_grade_desc_head in Hhd.
    destruct Hhd as [Hin Hmax]. split.
    + now apply sql_join_subject_In.
    + intros r' g' Hrow. destruct (Hjoin r' g' Hrow) as [n Hn].
      exact (Hmax (n, g') Hn).
Qed.

Section Endpoints.

Variable py_int : string -> option Z.
Variable py_round2 : pyfloat -> pyfloat.
Variable str_float : pyfloat -> string.

(** X16: on a store that satisfies the handlers' invariant, the two subject
    endpoints agree.  For a subject without grade rows both answer 404 with
    the same text.  For a subject with grade rows both answer 200:
    /subject_topper names a student who has a row of the subject with a
    grade that no row of the subject exceeds, and /class_average reports the
    rounding of the average that [get_class_average] returns. *)
Theorem subject_endpoints_agree (c : connection) (f : form) (s : string) :
  handler_ok (view c) ->
  form_first f "subject" = Some s ->
  ((forall r g, ~ In (r, s, g) (grades (view c))) ->
   subject_topper str_float f c
   = (Ok (Body (String.append "No grades found for subject: " s) 404), c) /\
   class_average py_round2 str_float f c
   = (Ok (Body (String.append "No grades found for subject: " s) 404), c)) /\
  ((exists r g, In (r, s, g) (grades (view c))) ->
   exists name g m,
     subject_topper str_float f c
     = (Ok (Body (String.append "The topper in "
                   (String.append s
                     (String.append " is "
                       (String.append name
                         (String.append " with a grade of " (str_float g))))))
              200), c) /\
     class_average py_round2 str_float f c
     = (Ok (Body (String.append "The class average for "
                   (String.append s
                     (String.append " is " (str_float (py_round2 m)))))
              200), c) /\
     StudentTracker.get_class_average s c = (Ok (Some m), c) /\
     (exists r, In (r, name) (students (view c)) /\ In (r, s, g) (grades (view c))) /\
     (forall r' g', In (r', s, g') (grades (view c)) -> sql_le g' g = true)).
Proof.
  intros [_ [Href Hrange]] Hs.
  destruct (topper_in_referential (view c) s Href) as [Htnone Htsome].
  pose proof (sql_avg_in_range (fun row : grade_row => String.eqb (snd (fst row)) s)
                (grades (view c)) Hrange) as Hanone.
  assert (Htop : subject_topper str_float f c
                 = match hd_error (order_by_grade_desc (sql_join_subject s (view c))) with
                   | Some (name, grade) =>
                       (Ok (Body (String.append "The topper in "
                                   (String.append s
                                     (String.append " is "
                                       (String.append name
                                         (String.append " with a grade of "
                                            (str_float grade))))))
                              200), c)
                   | None =>
                       (Ok (Body (String.append "No grades found for subject: " s) 404), c)
                   end).
  { unfold subject_topper, bind at 1, form_get. rewrite Hs.
    cbv beta iota delta [ret]. unfold bind. rewrite get_subject_topper_run.
    destruct (hd_error _) as [[name grade]|]; reflexivity. }
  assert (Havg : class_average py_round2 str_float f c
                 = match sql_avg (fun row : grade_row => String.eqb (snd (fst row)) s)
                           (grades (view c)) with
                   | Some a =>
                       (Ok (Body (String.append "The class average for "
                                   (String.append s
                                     (String.append " is " (str_float (py_round2 a)))))
                              200), c)
                   | None =>
                       (Ok (Body (String.append "No grades found for subject: " s) 404), c)
                   end).
  { unfold class_average, bind at 1, form_get. rewrite Hs.
    cbv beta iota delta [ret]. unfold bind, StudentTracker.get_class_average,
      execute_select, sql_avg_by_subject.
    destruct (sql_avg _ _); reflexivity. }
  rewrite Htop, Havg. split.
  - intros Hno.
    rewrite (proj2 Htnone Hno).
    rewrite (proj2 Hanone (proj2 (filter_subject_nil (view c) s) Hno)).
    split; reflexivity.
  - intros [r0 [g0 Hrow]].
    destruct (hd_error (order_by_grade_desc (sql_join_subject s (view c))))
      as [[name g]|] eqn:Ehd.
    + destruct (sql_avg (fun row : grade_row => String.eqb (snd (fst row)) s)
                  (grades (view c))) as [m|] eqn:Eavg.
      * exists name, g, m. destruct (Htsome name g eq_refl) as [Hwho Hmax].
        split; [reflexivity|]. split; [reflexivity|]. split.
        -- unfold StudentTracker.get_class_average, execute_select,
             sql_avg_by_subject. now rewrite Eavg.
        -- split; [exact Hwho | exact Hmax].
      * exfalso. apply (proj1 (filter_subject_nil (view c) s) (proj1 Hanone eq_refl)
                          r0 g0 Hrow).
    + exfalso. exact (proj1 Htnone eq_refl r0 g0 Hrow).
Qed.

(** X17: the requests that make a handler raise instead of answering.  For
    POST /add_grades and POST /view_details alike: without the field
    roll_number the 400 of a missing key is raised; a roll number that [int]
    does not accept raises ValueError; an integer outside the signed 64-bit
    range raises OverflowError at the lookup of the student.  The connection
    is left as it was in every case. *)
Theorem roll_number_uncaught_errors (py_float : string -> option pyfloat)
  (c : connection) (f : form) :
  (form_first f "roll_number" = None ->
   add_grades py_int py_float f c = (Raise (BadRequestKeyError "roll_number"), c) /\
   view_details py_int py_round2 POST f c
   = (Raise (BadRequestKeyError "roll_number"), c)) /\
  (forall s,
     form_first f "roll_number" = Some s ->
     py_int s = None ->
     add_grades py_int py_float f c
     = (Raise (ValueError "invalid literal for int() with base 10"), c) /\
     view_details py_int py_round2 POST f c
     = (Raise (ValueError "invalid literal for int() with base 10"), c)) /\
  (forall s r,
     form_first f "roll_number" = Some s ->
     py_int s = Some r ->
     fits_int64 r = false ->
     add_grades py_int py_float f c = (Raise OverflowError, c) /\
     view_details py_int py_round2 POST f c = (Raise OverflowError, c)).
Proof.
  unfold add_grades, view_details, bind, form_get, int_.
  split; [|split].
  - intros Hs. rewrite Hs. split; reflexivity.
  - intros s Hs Hint. rewrite Hs. cbv beta iota delta [ret]. rewrite Hint.
    split; reflexivity.
  - intros s r Hs Hint Hfit. rewrite Hs. cbv beta iota delta [ret]. rewrite Hint.
    cbv beta iota. rewrite get_student_by_roll_overflow by exact Hfit.
    split; reflexivity.
Qed.

End Endpoints.

Lemma subject_endpoints_agree_witness :
  subject_topper (fun _ => "90.0"%string) [("subject", "Art")]%string
    (snd (add_grades int_literal float_literal
            [("roll_number", "1"); ("subject", "Math"); ("grade", "90")]%string
            (snd (add_student int_literal
                    [("name", "Alice"); ("roll_number", "1")]%string init_db))))
  = (Ok (Body "No grades found for subject: Art" 404),
     snd (add_grades int_literal float_literal
            [("roll_number", "1"); ("subject", "Math"); ("grade", "90")]%string
            (snd (add_student int_literal
                    [("name", "Alice"); ("roll_number", "1")]%string init_db)))) /\
  exists name g m,
    subject_topper (fun _ => "90.0"%string) [("subject", "Math")]%string
      (snd (add_grades int_literal float_literal
              [("roll_number", "1"); ("subject", "Math"); ("grade", "90")]%string
              (snd (add_student int_literal
                      [("name", "Alice"); ("roll_number", "1")]%string init_db))))
    = (Ok (Body (String.append "The topper in "
                  (String.append "Math"
                    (String.append " is "
                      (String.append name
                        (String.append " with a grade of "
                           ((fun _ : pyfloat => "90.0"%string) g))))))
             200),
       snd (add_grades int_literal float_literal
              [("roll_number", "1"); ("subject", "Math"); ("grade", "90")]%string
              (snd (add_student int_literal
                      [("name", "Alice"); ("roll_number", "1")]%string init_db)))) /\
    StudentTracker.get_class_average "Math"
      (snd (add_grades int_literal float_literal
              [("roll_number", "1"); ("subject", "Math"); ("grade", "90")]%string
              (snd (add_student int_literal
                      [("name", "Alice"); ("roll_number", "1")]%string init_db))))
    = (Ok (Some m),
       snd (add_grades int_literal float_literal
              [("roll_number", "1"); ("subject", "Math"); ("grade", "90")]%string
              (snd (add_student int_literal
                      [("name", "Alice"); ("roll_number", "1")]%string init_db)))).
Proof.
  assert (Hok : handler_ok
                  (view (snd (add_grades int_literal float_literal
                                [("roll_number", "1"); ("subject", "Math");
                                 ("grade", "90")]%string
                                (snd (add_student int_literal
                                        [("name", "Alice"); ("roll_number", "1")]%string
                                        init_db)))))).
  { split; [constructor; simpl; repeat constructor|]. split.
    - intros r s g [H | []]. injection H as <- _ _. simpl. now left.
    - repeat constructor. }
  split.
  - destruct (subject_endpoints_agree (fun x => x) (fun _ => "90.0"%string) _
                [("subject", "Art")]%string "Art"%string Hok eq_refl)
      as [Hnone _].
    destruct Hnone as [Htop _]; [|exact Htop].
    simpl. intros r g [H | []]. discriminate H.
  - destruct (subject_endpoints_agree (fun x => x) (fun _ => "90.0"%string) _
                [("subject", "Math")]%string "Math"%string Hok eq_refl)
      as [_ Hsome].
    destruct Hsome as [name [g [m [Htop [_ [Havg _]]]]]].
    + exists 1, (Fin 90). simpl. now left.
    + exists name, g, m. split; [exact Htop | exact Havg].
Defined.

(** ** The repository on its own *)

(** X18: called directly, with any arguments, [StudentTracker.add_student]
    and [StudentTracker.add_grades] keep what SQLite guarantees of the two
    relations, in what the connection sees and in what is committed: roll
    numbers of students fit 64 bits and are in strictly ascending order (so
    no two students share one), and no grade row holds a roll number that
    does not fit or a NULL grade. *)
Theorem repository_writes_keep_store_ok (c : connection) (name : string) (r : Z)
  (subjects : list string) (grades_ : list pyfloat) :
  store_ok (view c) -> store_ok (disk c) ->
  (store_ok (view (snd (StudentTracker.add_student name r c))) /\
   store_ok (disk (snd (StudentTracker.add_student name r c)))) /\
  (store_ok (view (snd (StudentTracker.add_grades r subjects grades_ c))) /\
   store_ok (disk (snd (StudentTracker.add_grades r subjects grades_ c)))).
Proof.
  intros Hview Hdisk. split.
  - now apply add_student_store_ok.
  - now apply add_grades_store_ok.
Qed.

Lemma repository_writes_keep_store_ok_witness :
  store_ok
    (disk (snd (StudentTracker.add_grades 99 ["Math"; "Art"]%string [Fin 50; NaN]
                  (add_students [("Alice"%string, 1)] init_db)))) /\
  store_ok
    (disk (snd (StudentTracker.add_student "Bob" 1
                  (add_students [("Alice"%string, 1)] init_db)))).
Proof.
  destruct (repository_writes_keep_store_ok
              (add_students [("Alice"%string, 1)] init_db) "Bob" 1
              ["Math"; "Art"]%string [Fin 50; NaN])
    as [[_ Hstudent] _]; [constructor; simpl; repeat constructor
                         | constructor; simpl; repeat constructor |].
  destruct (repository_writes_keep_store_ok
              (add_students [("Alice"%string, 1)] init_db) "Bob" 99
              ["Math"; "Art"]%string [Fin 50; NaN])
    as [_ [_ Hgrades]]; [constructor; simpl; repeat constructor
                        | constructor; simpl; repeat constructor |].
  split; [exact Hgrades | exact Hstudent].
Defined.
